(** * Orchestrator: plan / execute engine

    A shallow embedding of [src/orchestrator/orchestrator.py] and of the
    registry of [src/orchestrator/tools.py], followed by the properties of
    the planner, the plan validator, the step executor, the plan runner and
    the execution-history summary.

    Conventions of the embedding.
    - A Python [str] is a [string]: a sequence of code points below 256, so
      [str.lower] and [json.dumps] are the Python functions on that range.
    - A Python value of the JSON kind is a [PyVal]; a [dict] is an
      association list in insertion order, read by its first binding.
    - A Python [float] is carried as the rational it stands for.
    - Code that may raise returns an [Outcome]; [try ... except Exception]
      is [try_except].
    - The wall clock and the tool bodies (database, object store, sleeping
      jobs) are outside the program: the clock readings are arguments and
      the tools are an oracle over an abstract world. *)

From Stdlib Require Import ZArith QArith List Bool Ascii String Lia.
From Stdlib Require Import DecimalString.
From Stdlib Require DecimalPos DecimalZ.
Import ListNotations.

Local Open Scope Z_scope.
Local Open Scope string_scope.
Local Open Scope list_scope.

(** ** Python values and exceptions *)

Module Py.

#[local] Set Warnings "-register-all".

Inductive PyVal : Type :=
| PNone
| PBool (b : bool)
| PInt (z : Z)
| PFloat (q : Q)
| PStr (s : string)
| PList (l : list PyVal)
| PDict (d : list (string * PyVal)).

Definition PyDict : Type := list (string * PyVal).

Inductive PyExc : Type :=
| KeyError (key : string)
| TypeError (msg : string)
| AttributeError (msg : string)
| ValueError (msg : string)
| TimeoutError (msg : string)
| Exception (msg : string)
| ZeroDivisionError (msg : string).

(** [str(e)] *)
Definition exc_str (e : PyExc) : string :=
  match e with
  | KeyError k => "'" ++ k ++ "'"
  | TypeError m | AttributeError m | ValueError m | TimeoutError m
  | Exception m | ZeroDivisionError m => m
  end.

Inductive Outcome (A : Type) : Type :=
| Return (a : A)
| Raise (e : PyExc).

Arguments Return {A} a.
Arguments Raise {A} e.

Definition bind {A B : Type} (m : Outcome A) (k : A -> Outcome B) : Outcome B :=
  match m with
  | Return a => k a
  | Raise e => Raise e
  end.

(** [try: body  except Exception as e: handler(e)] *)
Definition try_except {A : Type} (body : Outcome A) (handler : PyExc -> Outcome A)
  : Outcome A :=
  match body with
  | Return a => Return a
  | Raise e => handler e
  end.

(** [d.get(key)] as an option, on the association list of a dict *)
Fixpoint lookup (key : string) (d : PyDict) : option PyVal :=
  match d with
  | [] => None
  | (k, v) :: d' => if String.eqb k key then Some v else lookup key d'
  end.

(** [v[key]] for a string key *)
Definition getitem (v : PyVal) (key : string) : Outcome PyVal :=
  match v with
  | PDict d =>
      match lookup key d with
      | Some x => Return x
      | None => Raise (KeyError key)
      end
  | PList _ => Raise (TypeError "list indices must be integers or slices, not str")
  | PStr _ => Raise (TypeError "string indices must be integers")
  | _ => Raise (TypeError "object is not subscriptable")
  end.

(** [v.get(key, default)] *)
Definition get_default (v : PyVal) (key : string) (default : PyVal) : Outcome PyVal :=
  match v with
  | PDict d =>
      match lookup key d with
      | Some x => Return x
      | None => Return default
      end
  | _ => Raise (AttributeError "object has no attribute 'get'")
  end.

Fixpoint chars (s : string) : list PyVal :=
  match s with
  | EmptyString => []
  | String c s' => PStr (String c EmptyString) :: chars s'
  end.

(** The elements a [for] loop over [v] visits: the items of a list, the
    keys of a dict, the characters of a str. *)
Definition iter (v : PyVal) : Outcome (list PyVal) :=
  match v with
  | PList l => Return l
  | PDict d => Return (map (fun kv => PStr (fst kv)) d)
  | PStr s => Return (chars s)
  | _ => Raise (TypeError "object is not iterable")
  end.

(** [v >= i] for an [int] [i] *)
Definition ge_int (v : PyVal) (i : Z) : Outcome bool :=
  match v with
  | PInt z => Return (z >=? i)
  | PBool b => Return ((if b then 1 else 0) >=? i)
  | PFloat q => Return (Qle_bool (inject_Z i) q)
  | _ => Raise (TypeError "'>=' not supported between instances")
  end.

(** [v == s] for a [str] literal [s] *)
Definition eq_str (v : PyVal) (s : string) : bool :=
  match v with
  | PStr s' => String.eqb s' s
  | _ => false
  end.

(** [a / b] on two [int]s *)
Definition truediv (a b : Z) : Outcome PyVal :=
  match b with
  | Z0 => Raise (ZeroDivisionError "division by zero")
  | Zpos p => Return (PFloat (a # p))
  | Zneg p => Return (PFloat ((- a) # p))
  end.

(** [str(z)], also what an f-string prints for an [int] *)
Definition str_of_int (z : Z) : string :=
  NilZero.string_of_int (Z.to_int z).

(** [s.lower()] *)
Definition lower_char (c : ascii) : ascii :=
  let n := nat_of_ascii c in
  if ((65 <=? n) && (n <=? 90))%nat
     || ((192 <=? n) && (n <=? 222) && negb (n =? 215))%nat
  then ascii_of_nat (n + 32)
  else c.

Fixpoint lower (s : string) : string :=
  match s with
  | EmptyString => EmptyString
  | String c s' => String (lower_char c) (lower s')
  end.

(** [hay.startswith(needle)] *)
Fixpoint startswith (needle hay : string) : bool :=
  match needle, hay with
  | EmptyString, _ => true
  | String _ _, EmptyString => false
  | String a needle', String b hay' => Ascii.eqb a b && startswith needle' hay'
  end.

(** [needle in hay] *)
Fixpoint str_in (needle hay : string) : bool :=
  startswith needle hay
  || match hay with
     | EmptyString => false
     | String _ hay' => str_in needle hay'
     end.

(** *** [json.dumps] on strings and on flat objects of strings *)

Definition dquote : ascii := "034"%char.
Definition backslash : ascii := "092"%char.
Definition newline : ascii := "010"%char.

Definition hex_digit (n : nat) : ascii :=
  if (n <? 10)%nat then ascii_of_nat (48 + n) else ascii_of_nat (87 + n).

Definition json_escape_char (c : ascii) : string :=
  let n := nat_of_ascii c in
  let esc (x : ascii) := String backslash (String x EmptyString) in
  if (n =? 34)%nat then esc dquote
  else if (n =? 92)%nat then esc backslash
  else if (n =? 10)%nat then esc "n"%char
  else if (n =? 13)%nat then esc "r"%char
  else if (n =? 9)%nat then esc "t"%char
  else if (n =? 8)%nat then esc "b"%char
  else if (n =? 12)%nat then esc "f"%char
  else if ((32 <=? n) && (n <=? 126))%nat then String c EmptyString
  else String backslash
         (String "u" (String "0" (String "0"
            (String (hex_digit (n / 16)) (String (hex_digit (n mod 16)) EmptyString))))).

Fixpoint json_escape (s : string) : string :=
  match s with
  | EmptyString => EmptyString
  | String c s' => json_escape_char c ++ json_escape s'
  end.

Definition json_dumps_str (s : string) : string :=
  String dquote (json_escape s ++ String dquote EmptyString).

Fixpoint json_members (d : list (string * string)) : string :=
  match d with
  | [] => EmptyString
  | [(k, v)] => json_dumps_str k ++ ": " ++ json_dumps_str v
  | (k, v) :: d' => json_dumps_str k ++ ": " ++ json_dumps_str v ++ ", " ++ json_members d'
  end.

Definition json_dumps_obj (d : list (string * string)) : string :=
  "{" ++ json_members d ++ "}".

End Py.

Import Py.

Notation "x <- m ;; k" := (bind m (fun x => k))
  (at level 61, m at next level, right associativity).

(** ** The tool registry ([tools.py]) *)

Inductive ToolFn : Type :=
| runs_record_event
| artifacts_write_text
| etl_run_job
| train_model
| deploy_agent.

Definition TOOL_REGISTRY : list (string * ToolFn) :=
  [ ("runs_record_event", runs_record_event);
    ("artifacts_write_text", artifacts_write_text);
    ("etl_run_job", etl_run_job);
    ("train_model", train_model);
    ("deploy_agent", deploy_agent) ].

Fixpoint registry_find (name : string) (reg : list (string * ToolFn)) : option ToolFn :=
  match reg with
  | [] => None
  | (k, f) :: reg' => if String.eqb k name then Some f else registry_find name reg'
  end.

(** [tool_name in TOOL_REGISTRY] for a [str] *)
Definition registered (name : string) : bool :=
  match registry_find name TOOL_REGISTRY with
  | Some _ => true
  | None => false
  end.

Definition get_tool (tool_name : string) : Outcome ToolFn :=
  if negb (registered tool_name)
  then Raise (ValueError ("Unknown tool: " ++ tool_name))
  else match registry_find tool_name TOOL_REGISTRY with
       | Some f => Return f
       | None => Raise (KeyError tool_name)
       end.

(** [v in self.tools] for any value: a list or a dict cannot be hashed,
    and no key of the registry equals a value that is not a [str]. *)
Definition in_tools (v : PyVal) : Outcome bool :=
  match v with
  | PStr s => Return (registered s)
  | PList _ => Raise (TypeError "unhashable type: 'list'")
  | PDict _ => Raise (TypeError "unhashable type: 'dict'")
  | _ => Return false
  end.

(** ** The data model ([TaskStep], [TaskPlan], [Orchestrator]) *)

Record TaskStep : Type := mkTaskStep {
  tool : string;
  args : PyDict;
  depends_on : list Z;
  timeout : Z;
  retry_count : Z
}.

(** [TaskStep(tool=..., args=..., depends_on=...)] with the field defaults *)
Definition new_step (tool : string) (args : PyDict) (depends_on : list Z) : TaskStep :=
  mkTaskStep tool args depends_on 300 3.

Record TaskPlan : Type := mkTaskPlan {
  goal : string;
  steps : list TaskStep;
  metadata : PyDict;
  created_at : string
}.

Record Orchestrator : Type := mkOrchestrator {
  current_plan : option TaskPlan;
  execution_history : list PyDict
}.

(** [Orchestrator()] *)
Definition Orchestrator_init : Orchestrator := mkOrchestrator None [].

(** [step.dict()] *)
Definition step_dict (s : TaskStep) : PyVal :=
  PDict [ ("tool", PStr (tool s));
          ("args", PDict (args s));
          ("depends_on", PList (map PInt (depends_on s)));
          ("timeout", PInt (timeout s));
          ("retry_count", PInt (retry_count s)) ].

(** The dict [plan] returns for a [TaskPlan] *)
Definition plan_dict (p : TaskPlan) : PyVal :=
  PDict [ ("goal", PStr (goal p));
          ("steps", PList (map step_dict (steps p)));
          ("metadata", PDict (metadata p));
          ("created_at", PStr (created_at p)) ].

(** ** The outside world: clock and tool bodies *)

Class Env : Type := {
  World : Type;
  (** [int(datetime.utcnow().timestamp())] *)
  utcnow_timestamp : World -> Z;
  (** [datetime.utcnow().isoformat()] *)
  utcnow_iso : World -> string;
  (** [await asyncio.wait_for(asyncio.to_thread(tool_func, **args), timeout)]:
      the mapping the tool returns, or the exception it raises, or
      [TimeoutError] when it has not completed after [timeout] seconds. *)
  invoke : ToolFn -> PyDict -> Z -> World -> Outcome PyDict * World
}.

(** ** Planner ([Orchestrator.plan]) *)

Definition len {A : Type} (l : list A) : Z := Z.of_nat (List.length l).

(** The keyword tests of the three [if]/[elif] conditions *)
Definition is_etl_goal (goal_lower : string) : bool :=
  str_in "etl" goal_lower || str_in "data" goal_lower || str_in "pipeline" goal_lower.

Definition is_training_goal (goal_lower : string) : bool :=
  str_in "train" goal_lower || str_in "model" goal_lower.

Definition is_deployment_goal (goal_lower : string) : bool :=
  str_in "deploy" goal_lower || str_in "agent" goal_lower.

(** The [steps] list as [plan] builds it; [ts] is the clock reading used
    for the artifact path. *)
Definition plan_steps (goal : string) (ts : Z) : list TaskStep :=
  let steps : list TaskStep := [] in
  let steps := steps ++
    [ new_step "runs_record_event"
        [ ("event_type", PStr "PLAN"); ("details", PDict [("goal", PStr goal)]) ]
        [] ] in
  let goal_lower := lower goal in
  let steps :=
    if is_etl_goal goal_lower then
      let steps := steps ++
        [ new_step "etl_run_job"
            [ ("payload", PDict [("goal", PStr goal); ("pipeline", PStr "default")]) ]
            [0] ] in
      steps ++
        [ new_step "artifacts_write_text"
            [ ("path", PStr ("etl/results/" ++ str_of_int ts ++ ".json"));
              ("content", PStr (json_dumps_obj [("goal", goal); ("status", "completed")])) ]
            [1] ]
    else if is_training_goal goal_lower then
      let steps := steps ++
        [ new_step "train_model"
            [ ("model_name", PStr "orchestrator-model");
              ("config", PDict [("epochs", PInt 10); ("batch_size", PInt 32)]) ]
            [0] ] in
      steps ++
        [ new_step "artifacts_write_text"
            [ ("path", PStr ("training/logs/" ++ str_of_int ts ++ ".txt"));
              ("content", PStr ("Training initiated for goal: " ++ goal)) ]
            [1] ]
    else if is_deployment_goal goal_lower then
      steps ++
        [ new_step "deploy_agent"
            [ ("agent_name", PStr "orchestrator-nova");
              ("version", PStr "v1.0.0");
              ("config", PDict [("replicas", PInt 1); ("memory", PStr "2Gi")]) ]
            [0] ]
    else
      let steps := steps ++
        [ new_step "etl_run_job"
            [ ("payload", PDict [("goal", PStr goal); ("type", PStr "generic")]) ]
            [0] ] in
      steps ++
        [ new_step "artifacts_write_text"
            [ ("path", PStr ("runs/" ++ str_of_int ts ++ ".txt"));
              ("content",
               PStr ("Goal: " ++ goal ++ String newline "Status: Processing")) ]
            [1] ] in
  steps ++
    [ new_step "runs_record_event"
        [ ("event_type", PStr "DONE"); ("details", PDict [("goal", PStr goal)]) ]
        (if len steps >? 1 then [len steps - 1] else []) ].

Section WithEnv.

Context {env : Env}.

(** The [TaskPlan] object [plan] builds in world [w] *)
Definition make_plan (goal : string) (w : World) : TaskPlan :=
  let steps := plan_steps goal (utcnow_timestamp w) in
  mkTaskPlan goal steps
    [ ("planner_version", PStr "1.0.0");
      ("estimated_duration_seconds", PInt (len steps * 5)) ]
    (utcnow_iso w).

(** [await self.plan(goal)]: the returned dict and the orchestrator with
    [current_plan] set. *)
Definition plan (goal : string) (self : Orchestrator) (w : World)
  : PyVal * Orchestrator :=
  let p := make_plan goal w in
  (plan_dict p, mkOrchestrator (Some p) (execution_history self)).

(** ** Step executor ([Orchestrator.execute_step])

    The executor and the runner are given the steps as [TaskStep]s: on the
    dict of a step, the [TaskStep] constructor reads back the step it was
    made from. *)

Definition append_history (self : Orchestrator) (entry : PyDict) : Orchestrator :=
  mkOrchestrator (current_plan self) (execution_history self ++ [entry]).

(** The body of the [try] up to and including the awaited call *)
Definition call_tool (step_obj : TaskStep) (w : World) : Outcome PyDict * World :=
  match get_tool (tool step_obj) with
  | Raise e => (Raise e, w)
  | Return tool_func => invoke tool_func (args step_obj) (timeout step_obj) w
  end.

Definition execute_step (step_obj : TaskStep) (self : Orchestrator) (w : World)
  : Outcome PyDict * Orchestrator * World :=
  let '(r, w') := call_tool step_obj w in
  match r with
  | Return result =>
      let self' := append_history self
        [ ("tool", PStr (tool step_obj));
          ("args", PDict (args step_obj));
          ("result", PDict result);
          ("status", PStr "success");
          ("timestamp", PStr (utcnow_iso w')) ] in
      (Return result, self', w')
  | Raise (TimeoutError _) =>
      (Return [ ("status", PStr "timeout");
                ("tool", PStr (tool step_obj));
                ("error", PStr ("Step timed out after "
                                ++ str_of_int (timeout step_obj) ++ " seconds")) ],
       self, w')
  | Raise e =>
      let self' := append_history self
        [ ("tool", PStr (tool step_obj));
          ("args", PDict (args step_obj));
          ("error", PStr (exc_str e));
          ("status", PStr "failed");
          ("timestamp", PStr (utcnow_iso w')) ] in
      (Return [ ("status", PStr "error");
                ("tool", PStr (tool step_obj));
                ("error", PStr (exc_str e)) ],
       self', w')
  end.

(** ** Plan runner ([Orchestrator.act]) *)

(** The [for] loop of [act] over the remaining steps, [results] being the
    list built so far.  The test on a failed [runs_record_event] only logs
    a warning, so it leaves no trace in the state. *)
Fixpoint act_loop (todo : list TaskStep) (results : list PyVal)
    (self : Orchestrator) (w : World)
  : Outcome (list PyVal) * Orchestrator * World :=
  match todo with
  | [] => (Return results, self, w)
  | step :: todo' =>
      match execute_step step self w with
      | (Raise e, self', w') => (Raise e, self', w')
      | (Return result, self', w') =>
          let results := results ++
            [ PDict [ ("tool", PStr (tool step)); ("result", PDict result) ] ] in
          act_loop todo' results self' w'
      end
  end.

Definition act (plan : TaskPlan) (self : Orchestrator) (w : World)
  : Outcome (list PyVal) * Orchestrator * World :=
  act_loop (steps plan) [] self w.

End WithEnv.

(** ** Plan validation ([Orchestrator.validate_plan]) *)

(** First loop: [Return false] is the early [return False], [Return true]
    the loop running to its end. *)
Fixpoint check_tools (steps : list PyVal) : Outcome bool :=
  match steps with
  | [] => Return true
  | step :: rest =>
      t <- getitem step "tool" ;;
      present <- in_tools t ;;
      if negb present then Return false else check_tools rest
  end.

(** Inner loop of the second loop, for the step at index [i] *)
Fixpoint check_deps_of (i : Z) (deps : list PyVal) : Outcome bool :=
  match deps with
  | [] => Return true
  | dep :: rest =>
      bad <- ge_int dep i ;;
      if bad then Return false else check_deps_of i rest
  end.

(** Second loop, [enumerate] having reached index [i] *)
Fixpoint check_deps (i : Z) (steps : list PyVal) : Outcome bool :=
  match steps with
  | [] => Return true
  | step :: rest =>
      d <- get_default step "depends_on" (PList []) ;;
      deps <- iter d ;;
      ok <- check_deps_of i deps ;;
      if ok then check_deps (i + 1) rest else Return false
  end.

Definition validate_plan_try (plan : PyVal) : Outcome bool :=
  s <- getitem plan "steps" ;;
  steps <- iter s ;;
  ok <- check_tools steps ;;
  if negb ok then Return false
  else
    s <- getitem plan "steps" ;;
    steps <- iter s ;;
    ok <- check_deps 0 steps ;;
    if negb ok then Return false else Return true.

Definition validate_plan (plan : PyVal) : Outcome bool :=
  try_except (validate_plan_try plan) (fun _ => Return false).

(** ** Execution summary ([Orchestrator.get_execution_summary]) *)

(** [h.get("status") == status] *)
Definition has_status (status : string) (h : PyDict) : bool :=
  match lookup "status" h with
  | Some v => eq_str v status
  | None => false
  end.

(** [sum(1 for h in history if h.get("status") == status)] *)
Definition count_status (status : string) (history : list PyDict) : Z :=
  len (filter (has_status status) history).

Definition get_execution_summary (self : Orchestrator) : Outcome PyVal :=
  let history := execution_history self in
  match history with
  | [] => Return (PDict [ ("message", PStr "No execution history") ])
  | _ :: _ =>
      let successful := count_status "success" history in
      let failed := count_status "failed" history in
      rate <- match history with
              | _ :: _ => truediv successful (len history)
              | [] => Return (PInt 0)
              end ;;
      Return (PDict [ ("total_executions", PInt (len history));
                      ("successful", PInt successful);
                      ("failed", PInt failed);
                      ("success_rate", rate);
                      ("last_execution",
                       match history with
                       | _ :: _ => PDict (last history [])
                       | [] => PNone
                       end) ])
  end.

(** ** A simulated world

    The clock counts seconds.  [etl_run_job] takes [job_seconds] (the
    source sleeps one second) and echoes its payload, and is given up when
    the timeout is shorter; the event store is unreachable, so
    [runs_record_event] raises; the other tools answer at once. *)

Definition sim_invoke (job_seconds : Z) (f : ToolFn) (args : PyDict) (timeout : Z)
    (w : Z) : Outcome PyDict * Z :=
  match f with
  | etl_run_job =>
      if (timeout <? job_seconds)%Z
      then (Raise (TimeoutError "timeout"), w + Z.max 0 timeout)
      else (Return [ ("status", PStr "success");
                     ("job_id", PStr ("etl_" ++ str_of_int w));
                     ("echo", match lookup "payload" args with
                              | Some v => v
                              | None => PNone
                              end) ],
            w + job_seconds)
  | runs_record_event => (Raise (Exception "connection refused"), w)
  | artifacts_write_text =>
      (Return [ ("status", PStr "success") ], w)
  | train_model =>
      (Return [ ("status", PStr "submitted") ], w)
  | deploy_agent =>
      (Return [ ("status", PStr "deployed") ], w)
  end.

Definition sim_env (job_seconds : Z) : Env :=
  {| World := Z;
     utcnow_timestamp := fun w => w;
     utcnow_iso := fun w => ("T+" ++ str_of_int w)%string;
     invoke := sim_invoke job_seconds |}.

(** * Around the orchestrator

    The storage tool of [tools.py] and the callers of the orchestrator:
    the HTTP endpoints of [api/main.py], the functions the voice layer
    registers ([voice/voice_orchestrator.py]), the dispatcher of
    [voice/gemini_live.py] and the command-line engine of
    [orchestrator/main.py].  Console output and logging leave no trace in
    the state and are left out. *)

(** ** Dicts with any values *)

(** [d.get(key)] *)
Fixpoint dict_get {V : Type} (key : string) (d : list (string * V)) : option V :=
  match d with
  | [] => None
  | (k, v) :: d' => if String.eqb k key then Some v else dict_get key d'
  end.


(** [len(v)] *)
Definition py_len (v : PyVal) : Outcome Z :=
  match v with
  | PList l => Return (len l)
  | PDict d => Return (len d)
  | PStr s => Return (Z.of_nat (String.length s))
  | _ => Raise (TypeError "object has no len()")
  end.

(** ** What the callers use beyond [Env] *)

Class Host {env : Env} : Type := {
  (** [await asyncio.to_thread(tool_func, ...)]: a tool called directly,
      with no deadline; it returns its mapping or raises. *)
  call : ToolFn -> PyDict -> World -> Outcome PyDict * World;
  (** [(end - start).total_seconds()] for two readings of the clock *)
  total_seconds : World -> World -> Q;
  (** [str(v)] for the values whose printing is not modelled here: float,
      list and dict *)
  str_other : PyVal -> string
}.

(** The value [v] as an f-string prints it *)
Definition py_str {env : Env} {host : Host} (v : PyVal) : string :=
  match v with
  | PNone => "None"
  | PBool true => "True"
  | PBool false => "False"
  | PInt z => str_of_int z
  | PStr s => s
  | _ => str_other v
  end.

(** ** [artifacts_write_text] ([tools.py]) *)

Module Tools.

(** [os.environ.get(key, default)] *)
Definition environ_get (environ : list (string * string)) (key default : string)
  : string :=
  match dict_get key environ with
  | Some v => v
  | None => default
  end.

(** [s[n:]] *)
Fixpoint drop (n : nat) (s : string) : string :=
  match n, s with
  | O, _ => s
  | S _, EmptyString => EmptyString
  | S n', String _ s' => drop n' s'
  end.

(** [s.rstrip(c)] for a one-character [c] *)
Fixpoint rstrip (c : ascii) (s : string) : string :=
  match s with
  | EmptyString => EmptyString
  | String a s' =>
      match rstrip c s' with
      | EmptyString => if Ascii.eqb a c then EmptyString else String a EmptyString
      | r => String a r
      end
  end.

(** The bucket the artifact goes to *)
Definition bucket_name (environ : list (string * string)) : string :=
  let bucket_name :=
    environ_get environ "GCS_BUCKET"
      ("orchestrator-" ++ environ_get environ "PROJECT_ID" "echovaeris"
       ++ "-" ++ environ_get environ "REGION" "us-central1") in
  if startswith "gs://" bucket_name
  then rstrip "/" (drop 5 bucket_name)
  else bucket_name.

(** [upload bucket path content] stands for the storage client: making
    the client, the bucket and the blob, setting the metadata and
    uploading the encoded content; it returns or raises. *)
Definition artifacts_write_text {env : Env}
    (environ : list (string * string))
    (upload : string -> string -> string -> World -> Outcome unit * World)
    (path content : string) (w : World) : Outcome PyDict * World :=
  let bucket_name := bucket_name environ in
  match upload bucket_name path content w with
  | (Raise e, w') => (Raise e, w')
  | (Return _, w') =>
      let gs_uri := ("gs://" ++ bucket_name ++ "/" ++ path)%string in
      (Return [ ("status", PStr "success");
                ("gs_uri", PStr gs_uri);
                ("size_bytes", PInt (Z.of_nat (String.length content)));
                ("timestamp", PStr (utcnow_iso w')) ],
       w')
  end.

End Tools.

(** ** The HTTP endpoints ([api/main.py]) *)

Module Api.

(** What an endpoint answers: the body it returns, or the [HTTPException]
    it raises. *)
Inductive Response : Type :=
| Ok (body : PyDict)
| HTTPException (status_code : Z) (detail : string).

Section WithHost.

Context {env : Env} {host : Host}.

(** The plan dict [plan] returned is handed to [act]; here [act] is given
    the [TaskPlan] that dict was made from. *)
Definition execute_task_sync (goal : string) (verbose : bool)
    (orchestrator : Orchestrator) (w : World)
  : Outcome PyDict * Orchestrator * World :=
  let start_time := w in
  let '(_, orchestrator) := plan goal orchestrator w in
  match act (make_plan goal w) orchestrator w with
  | (Raise e, orchestrator, w') => (Raise e, orchestrator, w')
  | (Return results, orchestrator, w') =>
      let duration := total_seconds start_time w' in
      (Return [ ("status", PStr "success");
                ("goal", PStr goal);
                ("results", if verbose then PList results else PNone);
                ("duration_seconds", PFloat duration);
                ("message",
                 PStr ("Successfully executed " ++ str_of_int (len results)
                       ++ " steps")) ],
       orchestrator, w')
  end.

(** [GET /status] *)
Definition get_status (orchestrator : Orchestrator) (w : World) : Response :=
  match get_execution_summary orchestrator with
  | Return summary =>
      Ok [ ("status", PStr "operational");
           ("execution_summary", summary);
           ("timestamp", PStr (utcnow_iso w)) ]
  | Raise e => HTTPException 500 (exc_str e)
  end.

(** [POST /plan] *)
Definition create_plan (goal : string) (orchestrator : Orchestrator) (w : World)
  : Response * Orchestrator :=
  let '(plan, orchestrator) := plan goal orchestrator w in
  let body :=
    steps <- get_default plan "steps" (PList []) ;;
    steps_count <- py_len steps ;;
    Return [ ("status", PStr "success");
             ("goal", PStr goal);
             ("plan", plan);
             ("steps_count", PInt steps_count);
             ("message", PStr "Plan created successfully") ] in
  match body with
  | Return b => (Ok b, orchestrator)
  | Raise e => (HTTPException 500 (exc_str e), orchestrator)
  end.

End WithHost.

End Api.

(** ** The voice functions ([voice/voice_orchestrator.py]) *)

Module Voice.

Section WithHost.

Context {env : Env} {host : Host}.

(** The dict the [except] clause of [execute_task] returns *)
Definition task_error (goal : string) (e : PyExc) : PyDict :=
  [ ("status", PStr "error");
    ("goal", PStr goal);
    ("error", PStr (exc_str e));
    ("message", PStr ("Failed to execute task: " ++ exc_str e)) ].

Definition execute_task (goal : string) (verbose : bool)
    (orchestrator : Orchestrator) (w : World) : PyDict * Orchestrator * World :=
  match call runs_record_event
          [ ("event_type", PStr "VOICE_COMMAND");
            ("details", PDict [ ("goal", PStr goal); ("source", PStr "gemini_live") ]) ]
          w with
  | (Raise e, w1) => (task_error goal e, orchestrator, w1)
  | (Return _, w1) =>
      let '(plan, orchestrator) := plan goal orchestrator w1 in
      match act (make_plan goal w1) orchestrator w1 with
      | (Raise e, orchestrator, w2) => (task_error goal e, orchestrator, w2)
      | (Return results, orchestrator, w2) =>
          match call runs_record_event
                  [ ("event_type", PStr "VOICE_COMPLETE");
                    ("details", PDict [ ("goal", PStr goal);
                                        ("steps_completed", PInt (len results));
                                        ("status", PStr "success") ]) ]
                  w2 with
          | (Raise e, w3) => (task_error goal e, orchestrator, w3)
          | (Return _, w3) =>
              ([ ("status", PStr "success");
                 ("goal", PStr goal);
                 ("steps_completed", PInt (len results));
                 ("plan", if verbose then plan else PNone);
                 ("message", PStr ("Successfully executed task: " ++ goal)) ],
               orchestrator, w3)
          end
      end
  end.

(** [limit] is accepted and not used. *)
Definition check_status (limit : Z) (orchestrator : Orchestrator) : PyDict :=
  let body :=
    summary <- get_execution_summary orchestrator ;;
    total <- get_default summary "total_executions" (PInt 0) ;;
    Return [ ("status", PStr "success");
             ("orchestrator_status", PStr "operational");
             ("execution_summary", summary);
             ("message",
              PStr ("Orchestrator is operational. " ++ py_str total
                    ++ " tasks executed.")) ] in
  match body with
  | Return d => d
  | Raise e =>
      [ ("status", PStr "error");
        ("error", PStr (exc_str e));
        ("message", PStr "Failed to check status") ]
  end.

End WithHost.

End Voice.

(** ** The function dispatcher ([voice/gemini_live.py]) *)

Module Gemini.

Record FunctionDeclaration : Type := mkFunctionDeclaration {
  name : string;
  description : string;
  parameters : PyDict
}.

Section WithEnv.

Context {env : Env}.

(** A registered handler, called with the arguments as keywords: it
    returns a value or raises. *)
Definition Handler : Type := PyDict -> World -> Outcome PyVal * World.

Record GeminiLiveHandler : Type := mkGeminiLiveHandler {
  tools : list FunctionDeclaration;
  function_handlers : list (string * Handler);
  conversation_history : list PyDict
}.


Definition _execute_function (function_name : string) (args : PyDict)
    (self : GeminiLiveHandler) (w : World) : PyVal * World :=
  match dict_get function_name (function_handlers self) with
  | None => (PDict [ ("error", PStr ("Unknown function: " ++ function_name)) ], w)
  | Some handler =>
      match handler args w with
      | (Return result, w') => (result, w')
      | (Raise e, w') => (PDict [ ("error", PStr (exc_str e)) ], w')
      end
  end.

(** [clear_history] *)
Definition clear_history (self : GeminiLiveHandler) : GeminiLiveHandler :=
  mkGeminiLiveHandler (tools self) (function_handlers self) [].

End WithEnv.

End Gemini.

(** ** The command-line engine ([orchestrator/main.py]) *)

Module Engine.

Section WithHost.

Context {env : Env} {host : Host}.

(** [_record_event]: the event is recorded if the store answers; what the
    store raises is logged and dropped. *)
Definition _record_event (event_type : string) (details : PyDict) (w : World)
  : World :=
  match call runs_record_event
          [ ("event_type", PStr event_type); ("details", PDict details) ] w with
  | (Return _, w') => w'
  | (Raise _, w') => w'
  end.

(** The loop of [execute_task] over the remaining steps *)
Fixpoint run_steps (todo : list TaskStep) (results : list PyVal)
    (orchestrator : Orchestrator) (w : World)
  : Outcome (list PyVal) * Orchestrator * World :=
  match todo with
  | [] => (Return results, orchestrator, w)
  | step :: todo' =>
      match execute_step step orchestrator w with
      | (Raise e, orchestrator, w') => (Raise e, orchestrator, w')
      | (Return result, orchestrator, w') =>
          run_steps todo' (results ++ [PDict result]) orchestrator w'
      end
  end.

(** [verbose] only adds console output. *)
Definition execute_task (goal : string) (verbose : bool)
    (orchestrator : Orchestrator) (w : World)
  : Outcome PyDict * Orchestrator * World :=
  let start_time := w in
  let w :=
    _record_event "TASK_START"
      [ ("goal", PStr goal); ("timestamp", PStr (utcnow_iso start_time)) ] w in
  let '(plan, orchestrator) := plan goal orchestrator w in
  match run_steps (steps (make_plan goal w)) [] orchestrator w with
  | (Raise e, orchestrator, w') =>
      let w' :=
        _record_event "TASK_ERROR"
          [ ("goal", PStr goal); ("error", PStr (exc_str e));
            ("timestamp", PStr (utcnow_iso w')) ] w' in
      (Raise e, orchestrator, w')
  | (Return results, orchestrator, w') =>
      let end_time := w' in
      let duration := total_seconds start_time end_time in
      let w' :=
        _record_event "TASK_COMPLETE"
          [ ("goal", PStr goal);
            ("duration_seconds", PFloat duration);
            ("steps_completed", PInt (len results));
            ("timestamp", PStr (utcnow_iso end_time)) ] w' in
      (Return [ ("status", PStr "success");
                ("goal", PStr goal);
                ("plan", plan);
                ("results", PList results);
                ("duration_seconds", PFloat duration) ],
       orchestrator, w')
  end.

End WithHost.

End Engine.

(** ** More simulated worlds *)

(** Every tool answers at once with a success mapping. *)
Definition ok_env : Env :=
  {| World := Z;
     utcnow_timestamp := fun w => w;
     utcnow_iso := fun w => ("T+" ++ str_of_int w)%string;
     invoke := fun _ _ _ w => (Return [ ("status", PStr "success") ], w) |}.

(** Direct calls on the simulated world: the event store records the
    events whose type [store_up] accepts and raises on the others; the
    other tools behave as under a deadline of an hour. *)
Definition sim_host (job_seconds : Z) (store_up : string -> bool)
  : Host (env := sim_env job_seconds) :=
  {| call := fun f args (w : World (Env := sim_env job_seconds)) =>
       match f with
       | runs_record_event =>
           match lookup "event_type" args with
           | Some (PStr event_type) =>
               if store_up event_type
               then (Return [ ("status", PStr "success") ], w)
               else (Raise (Exception "connection refused"), w)
           | _ => (Raise (TypeError "missing event_type"), w)
           end
       | _ => sim_invoke job_seconds f args 3600 w
       end;
     total_seconds := fun (a b : World (Env := sim_env job_seconds)) => inject_Z (b - a);
     str_other := fun _ => EmptyString |}.

(** * Vocabulary of the properties *)

(** [kw] occurs in [s] *)
Definition occurs (kw s : string) : Prop :=
  exists pre post, s = (pre ++ kw ++ post)%string.

Definition etl_keyword (s : string) : Prop :=
  occurs "etl" s \/ occurs "data" s \/ occurs "pipeline" s.

Definition training_keyword (s : string) : Prop :=
  occurs "train" s \/ occurs "model" s.

Definition deployment_keyword (s : string) : Prop :=
  occurs "deploy" s \/ occurs "agent" s.

(** The bracketing steps every plan has *)
Definition record_plan_step (goal : string) : TaskStep :=
  mkTaskStep "runs_record_event"
    [ ("event_type", PStr "PLAN"); ("details", PDict [("goal", PStr goal)]) ]
    [] 300 3.

Definition record_done_step (goal : string) (deps : list Z) : TaskStep :=
  mkTaskStep "runs_record_event"
    [ ("event_type", PStr "DONE"); ("details", PDict [("goal", PStr goal)]) ]
    deps 300 3.

(** The four workflows, written out step by step *)
Definition etl_workflow (goal : string) (ts : Z) : list TaskStep :=
  [ record_plan_step goal;
    mkTaskStep "etl_run_job"
      [ ("payload", PDict [("goal", PStr goal); ("pipeline", PStr "default")]) ]
      [0] 300 3;
    mkTaskStep "artifacts_write_text"
      [ ("path", PStr ("etl/results/" ++ str_of_int ts ++ ".json"));
        ("content", PStr (json_dumps_obj [("goal", goal); ("status", "completed")])) ]
      [1] 300 3;
    record_done_step goal [2] ].

Definition training_workflow (goal : string) (ts : Z) : list TaskStep :=
  [ record_plan_step goal;
    mkTaskStep "train_model"
      [ ("model_name", PStr "orchestrator-model");
        ("config", PDict [("epochs", PInt 10); ("batch_size", PInt 32)]) ]
      [0] 300 3;
    mkTaskStep "artifacts_write_text"
      [ ("path", PStr ("training/logs/" ++ str_of_int ts ++ ".txt"));
        ("content", PStr ("Training initiated for goal: " ++ goal)) ]
      [1] 300 3;
    record_done_step goal [2] ].

Definition deployment_workflow (goal : string) : list TaskStep :=
  [ record_plan_step goal;
    mkTaskStep "deploy_agent"
      [ ("agent_name", PStr "orchestrator-nova");
        ("version", PStr "v1.0.0");
        ("config", PDict [("replicas", PInt 1); ("memory", PStr "2Gi")]) ]
      [0] 300 3;
    record_done_step goal [1] ].

Definition generic_workflow (goal : string) (ts : Z) : list TaskStep :=
  [ record_plan_step goal;
    mkTaskStep "etl_run_job"
      [ ("payload", PDict [("goal", PStr goal); ("type", PStr "generic")]) ]
      [0] 300 3;
    mkTaskStep "artifacts_write_text"
      [ ("path", PStr ("runs/" ++ str_of_int ts ++ ".txt"));
        ("content", PStr ("Goal: " ++ goal ++ String newline "Status: Processing")) ]
      [1] 300 3;
    record_done_step goal [2] ].

(** What the two loops compute on a list of [TaskStep]s *)
Definition tools_okb (ss : list TaskStep) : bool :=
  forallb (fun s => registered (tool s)) ss.

Fixpoint deps_okb (i : Z) (ss : list TaskStep) : bool :=
  match ss with
  | [] => true
  | s :: rest => forallb (fun d => (d <? i)%Z) (depends_on s) && deps_okb (i + 1) rest
  end.

(** The two conditions of validation, on a list of steps *)
Definition tools_registered (ss : list TaskStep) : Prop :=
  forall s, In s ss -> registered (tool s) = true.

Definition deps_backward (ss : list TaskStep) : Prop :=
  forall i s dep, nth_error ss i = Some s -> In dep (depends_on s) -> dep < Z.of_nat i.

(** Every dependency of every step names a strictly earlier position. *)
Definition deps_earlier (ss : list TaskStep) : Prop :=
  forall i s dep, nth_error ss i = Some s -> In dep (depends_on s) ->
                  0 <= dep < Z.of_nat i.

Ltac by_position :=
  let i := fresh "i" in
  let s := fresh "s" in
  let dep := fresh "dep" in
  let Hi := fresh "Hi" in
  let Hd := fresh "Hd" in
  intros i s dep Hi Hd;
  do 4 (destruct i as [|i];
        [cbn in Hi; try discriminate; injection Hi as <-; cbn in Hd; intuition lia|]);
  cbn in Hi; try discriminate; destruct i; discriminate.

(** A plan with its clock-derived parts blanked: [created_at], and the
    value of the [path] argument of a step. *)
Definition erase_arg (kv : string * PyVal) : string * PyVal :=
  if String.eqb (fst kv) "path" then (fst kv, PNone) else kv.

Definition step_shape (s : TaskStep) : TaskStep :=
  mkTaskStep (tool s) (map erase_arg (args s)) (depends_on s) (timeout s)
    (retry_count s).

Definition plan_shape (p : TaskPlan) : TaskPlan :=
  mkTaskPlan (goal p) (map step_shape (steps p)) (metadata p) "".

(** [depends_on] with [d] inserted before position [pos] *)
Definition insert_dep (pos : nat) (d : Z) (s : TaskStep) : TaskStep :=
  mkTaskStep (tool s) (args s)
    (firstn pos (depends_on s) ++ d :: skipn pos (depends_on s))
    (timeout s) (retry_count s).

Fixpoint update_step (k : nat) (f : TaskStep -> TaskStep) (ss : list TaskStep)
  {struct ss} : list TaskStep :=
  match ss, k with
  | [], _ => []
  | s :: rest, O => f s :: rest
  | s :: rest, S k' => s :: update_step k' f rest
  end.

(** The plan with [d] added to the dependencies of step [k] *)
Definition add_dependency (k pos : nat) (d : Z) (p : TaskPlan) : TaskPlan :=
  mkTaskPlan (goal p) (update_step k (insert_dep pos d) (steps p)) (metadata p)
    (created_at p).

(** The three outcome dicts and history entries of [execute_step] *)
Definition timeout_outcome (step : TaskStep) : PyDict :=
  [ ("status", PStr "timeout");
    ("tool", PStr (tool step));
    ("error", PStr ("Step timed out after " ++ str_of_int (timeout step) ++ " seconds")) ].

Definition error_outcome (step : TaskStep) (msg : string) : PyDict :=
  [ ("status", PStr "error"); ("tool", PStr (tool step)); ("error", PStr msg) ].

(** The step's capability did not complete within [timeout step]: the
    awaited call raised [TimeoutError]. *)
Definition times_out {env : Env} (step : TaskStep) (w : World) : Prop :=
  exists msg, fst (call_tool step w) = Raise (TimeoutError msg).

(** A one-second step on a job that takes five *)
Definition slow_step : TaskStep :=
  mkTaskStep "etl_run_job" [ ("payload", PDict [("goal", PStr "sales")]) ] [] 1 3.

(** The entry [act] appends for a step and its outcome *)
Definition step_result (step : TaskStep) (outcome : PyDict) : PyVal :=
  PDict [ ("tool", PStr (tool step)); ("result", PDict outcome) ].

(** [Attempted todo self w outcomes self' w']: starting from [self] and
    [w], each step of [todo] is executed once, in order, each in the state
    its predecessor left, giving [outcomes] and ending in [self'], [w']. *)
Inductive Attempted {env : Env}
  : list TaskStep -> Orchestrator -> World -> list PyDict -> Orchestrator -> World -> Prop :=
| Attempted_nil (self : Orchestrator) (w : World) :
    Attempted [] self w [] self w
| Attempted_cons (step : TaskStep) (todo : list TaskStep)
    (self self1 self2 : Orchestrator) (w w1 w2 : World)
    (outcome : PyDict) (outcomes : list PyDict) :
    execute_step step self w = (Return outcome, self1, w1) ->
    Attempted todo self1 w1 outcomes self2 w2 ->
    Attempted (step :: todo) self w (outcome :: outcomes) self2 w2.

(** Plans used below: a plan in order, one with an unknown tool, one whose
    step 2 depends on itself, one whose step 2 depends on a step 5 that
    does not exist. *)
Definition three_steps (last_deps : list Z) : list TaskStep :=
  [ new_step "runs_record_event" [] [];
    new_step "etl_run_job" [ ("payload", PDict []) ] [0];
    new_step "runs_record_event" [] last_deps ].

Definition plan_of (ss : list TaskStep) : TaskPlan :=
  mkTaskPlan "sales" ss [] "2024-01-01T00:00:00".

Definition backward_plan : TaskPlan := plan_of (three_steps [1]).
Definition self_reference_plan : TaskPlan := plan_of (three_steps [2]).
Definition out_of_range_plan : TaskPlan := plan_of (three_steps [5]).
Definition unknown_tool_plan : TaskPlan := plan_of [ new_step "send_email" [] [] ].

(** A history of one success and one failure *)
Definition mixed_history : Orchestrator :=
  mkOrchestrator None
    [ [ ("tool", PStr "etl_run_job"); ("status", PStr "success") ];
      [ ("tool", PStr "runs_record_event"); ("status", PStr "failed") ] ].

(** * Vocabulary of the further properties *)

(** The history entries [execute_step] writes *)
Definition success_entry {env : Env} (step : TaskStep) (result : PyDict) (w : World)
  : PyDict :=
  [ ("tool", PStr (tool step));
    ("args", PDict (args step));
    ("result", PDict result);
    ("status", PStr "success");
    ("timestamp", PStr (utcnow_iso w)) ].

Definition failed_entry {env : Env} (step : TaskStep) (msg : string) (w : World)
  : PyDict :=
  [ ("tool", PStr (tool step));
    ("args", PDict (args step));
    ("error", PStr msg);
    ("status", PStr "failed");
    ("timestamp", PStr (utcnow_iso w)) ].

(** An entry whose status is ["success"] or ["failed"] *)
Definition recorded_status (entry : PyDict) : Prop :=
  lookup "status" entry = Some (PStr "success") \/
  lookup "status" entry = Some (PStr "failed").

Definition is_timeout {A : Type} (r : Outcome A) : bool :=
  match r with
  | Raise (TimeoutError _) => true
  | _ => false
  end.

(** How many of the steps of [todo] time out when they are run in order
    from [self] and [w] *)
Fixpoint timeouts_in {env : Env} (todo : list TaskStep) (self : Orchestrator)
    (w : World) : nat :=
  match todo with
  | [] => 0
  | step :: todo' =>
      let '(_, self', w') := execute_step step self w in
      ((if is_timeout (fst (call_tool step w)) then 1 else 0)
       + timeouts_in todo' self' w')%nat
  end.

(** An unregistered step on the simulated world *)
Definition email_step : TaskStep :=
  mkTaskStep "send_email" [ ("to", PStr "ops") ] [] 30 3.


(** The answer of the world to every tool call is a mapping *)
Definition always_answers (env : Env) : Prop :=
  forall f args timeout (w : World), exists result, fst (invoke f args timeout w) = Return result.


(** The dict of a step that gives only its tool and its arguments *)
Definition bare_step_dict (s : TaskStep) : PyVal :=
  PDict [ ("tool", PStr (tool s)); ("args", PDict (args s)) ].


(** The two events [Voice.execute_task] records *)
Definition voice_command_event (goal : string) : PyDict :=
  [ ("event_type", PStr "VOICE_COMMAND");
    ("details", PDict [ ("goal", PStr goal); ("source", PStr "gemini_live") ]) ].

Definition voice_complete_event (goal : string) (steps_completed : Z) : PyDict :=
  [ ("event_type", PStr "VOICE_COMPLETE");
    ("details", PDict [ ("goal", PStr goal);
                        ("steps_completed", PInt steps_completed);
                        ("status", PStr "success") ]) ].

(** [c] repeated [k] times *)
Fixpoint repeat_char (c : ascii) (k : nat) : string :=
  match k with
  | O => EmptyString
  | S k' => String c (repeat_char c k')
  end.

(** [s] does not end with the character [c] *)
Definition no_trailing (c : ascii) (s : string) : Prop :=
  forall pre, s <> (pre ++ String c EmptyString)%string.




(** The values of the [path] arguments of the steps, in step order *)
Definition artifact_paths (ss : list TaskStep) : list PyVal :=
  flat_map (fun s => match lookup "path" (args s) with
                     | Some v => [v]
                     | None => []
                     end) ss.

(** An upload that always goes through, and one that is refused *)
Definition upload_ok {env : Env} (bucket path content : string) (w : World)
  : Outcome unit * World := (Return tt, w).

Definition upload_refused {env : Env} (bucket path content : string) (w : World)
  : Outcome unit * World := (Raise (Exception "403 Forbidden"), w).

(** * Properties *)

(** ** Strings *)

Lemma startswith_spec (needle hay : string) :
  startswith needle hay = true <-> exists post, hay = (needle ++ post)%string.
Proof.
  revert hay; induction needle as [|a needle IH]; intros hay; simpl.
  - split; [intros _; now exists hay | reflexivity].
  - destruct hay as [|b hay].
    + split; [discriminate | intros [post H]; discriminate].
    + rewrite andb_true_iff, Ascii.eqb_eq, IH. split.
      * intros [-> [post ->]]. now exists post.
      * intros [post H]. injection H as -> ->. split; [reflexivity | now exists post].
Qed.

Lemma str_in_spec (needle hay : string) :
  str_in needle hay = true <-> exists pre post, hay = (pre ++ needle ++ post)%string.
Proof.
  induction hay as [|c hay IH].
  - simpl. rewrite orb_false_r, startswith_spec. split.
    + intros [post H]. now exists "", post.
    + intros [pre [post H]]. destruct pre; [now exists post | discriminate].
  - cbn [str_in]. rewrite orb_true_iff, startswith_spec, IH. split.
    + intros [[post H] | [pre [post H]]].
      * now exists "", post.
      * exists (String c pre), post. simpl. now rewrite H.
    + intros [pre [post H]]. destruct pre as [|c' pre].
      * left. now exists post.
      * right. simpl in H. injection H as _ H. now exists pre, post.
Qed.

Lemma lower_empty : lower "" = "".
Proof. reflexivity. Qed.

(** ** Planner: classification *)

Lemma is_etl_goal_spec (s : string) : is_etl_goal s = true <-> etl_keyword s.
Proof.
  unfold is_etl_goal, etl_keyword, occurs.
  rewrite !orb_true_iff, !str_in_spec. tauto.
Qed.

Lemma is_training_goal_spec (s : string) :
  is_training_goal s = true <-> training_keyword s.
Proof.
  unfold is_training_goal, training_keyword, occurs.
  rewrite !orb_true_iff, !str_in_spec. tauto.
Qed.

Lemma is_deployment_goal_spec (s : string) :
  is_deployment_goal s = true <-> deployment_keyword s.
Proof.
  unfold is_deployment_goal, deployment_keyword, occurs.
  rewrite !orb_true_iff, !str_in_spec. tauto.
Qed.

Lemma not_true_false (b : bool) (P : Prop) : (b = true <-> P) -> ~ P -> b = false.
Proof. destruct b; intuition. Qed.

Lemma plan_steps_etl (goal : string) (ts : Z) :
  is_etl_goal (lower goal) = true -> plan_steps goal ts = etl_workflow goal ts.
Proof. intros H. unfold plan_steps. rewrite H. reflexivity. Qed.

Lemma plan_steps_training (goal : string) (ts : Z) :
  is_etl_goal (lower goal) = false ->
  is_training_goal (lower goal) = true ->
  plan_steps goal ts = training_workflow goal ts.
Proof. intros H1 H2. unfold plan_steps. rewrite H1, H2. reflexivity. Qed.

Lemma plan_steps_deployment (goal : string) (ts : Z) :
  is_etl_goal (lower goal) = false ->
  is_training_goal (lower goal) = false ->
  is_deployment_goal (lower goal) = true ->
  plan_steps goal ts = deployment_workflow goal.
Proof. intros H1 H2 H3. unfold plan_steps. rewrite H1, H2, H3. reflexivity. Qed.

Lemma plan_steps_generic (goal : string) (ts : Z) :
  is_etl_goal (lower goal) = false ->
  is_training_goal (lower goal) = false ->
  is_deployment_goal (lower goal) = false ->
  plan_steps goal ts = generic_workflow goal ts.
Proof. intros H1 H2 H3. unfold plan_steps. rewrite H1, H2, H3. reflexivity. Qed.

(** Every plan is one of the four workflows. *)
Lemma plan_steps_cases (goal : string) (ts : Z) :
  plan_steps goal ts = etl_workflow goal ts \/
  plan_steps goal ts = training_workflow goal ts \/
  plan_steps goal ts = deployment_workflow goal \/
  plan_steps goal ts = generic_workflow goal ts.
Proof.
  destruct (is_etl_goal (lower goal)) eqn:H1;
    [left; now apply plan_steps_etl|].
  destruct (is_training_goal (lower goal)) eqn:H2;
    [right; left; now apply plan_steps_training|].
  destruct (is_deployment_goal (lower goal)) eqn:H3;
    [right; right; left; now apply plan_steps_deployment|].
  right; right; right; now apply plan_steps_generic.
Qed.

(** C5: classification is first-match in the order ETL, training,
    deployment, generic.  A goal whose lowercased text contains an ETL
    keyword gets the ETL workflow whatever else it contains; without one,
    a training keyword gives the training workflow; without either, a
    deployment keyword gives the deployment workflow; a goal with none of
    the keywords, the empty goal among them, gets the generic workflow. *)
Theorem goal_classification_first_match (goal : string) (ts : Z) :
  (etl_keyword (lower goal) -> plan_steps goal ts = etl_workflow goal ts) /\
  (~ etl_keyword (lower goal) -> training_keyword (lower goal) ->
   plan_steps goal ts = training_workflow goal ts) /\
  (~ etl_keyword (lower goal) -> ~ training_keyword (lower goal) ->
   deployment_keyword (lower goal) ->
   plan_steps goal ts = deployment_workflow goal) /\
  (~ etl_keyword (lower goal) -> ~ training_keyword (lower goal) ->
   ~ deployment_keyword (lower goal) ->
   plan_steps goal ts = generic_workflow goal ts) /\
  plan_steps "" ts = generic_workflow "" ts.
Proof.
  pose proof (is_etl_goal_spec (lower goal)) as E.
  pose proof (is_training_goal_spec (lower goal)) as T.
  pose proof (is_deployment_goal_spec (lower goal)) as D.
  repeat split.
  - intros H. apply plan_steps_etl. now apply E.
  - intros H1 H2. apply plan_steps_training.
    + now apply (not_true_false _ _ E).
    + now apply T.
  - intros H1 H2 H3. apply plan_steps_deployment.
    + now apply (not_true_false _ _ E).
    + now apply (not_true_false _ _ T).
    + now apply D.
  - intros H1 H2 H3. apply plan_steps_generic.
    + now apply (not_true_false _ _ E).
    + now apply (not_true_false _ _ T).
    + now apply (not_true_false _ _ D).
Qed.

(** ** Validation of the dicts of typed plans *)

Lemma check_tools_typed (ss : list TaskStep) :
  check_tools (map step_dict ss) = Return (tools_okb ss).
Proof.
  induction ss as [|s ss IH]; [reflexivity|].
  cbn. destruct (registered (tool s)); cbn; [exact IH | reflexivity].
Qed.

Lemma check_deps_of_typed (i : Z) (ds : list Z) :
  check_deps_of i (map PInt ds) = Return (forallb (fun d => (d <? i)%Z) ds).
Proof.
  induction ds as [|d ds IH]; [reflexivity|].
  cbn. rewrite Z.geb_leb, Z.leb_antisym.
  destruct (d <? i)%Z; cbn; [exact IH | reflexivity].
Qed.

Lemma check_deps_typed (i : Z) (ss : list TaskStep) :
  check_deps i (map step_dict ss) = Return (deps_okb i ss).
Proof.
  revert i; induction ss as [|s ss IH]; intros i; [reflexivity|].
  cbn [map check_deps deps_okb]. unfold step_dict at 1. cbn [get_default lookup String.eqb Ascii.eqb Bool.eqb].
  cbn [bind iter]. rewrite check_deps_of_typed. cbn [bind].
  destruct (forallb _ (depends_on s)); cbn; [apply IH | reflexivity].
Qed.

Lemma validate_plan_typed (p : TaskPlan) :
  validate_plan (plan_dict p) = Return (tools_okb (steps p) && deps_okb 0 (steps p)).
Proof.
  unfold validate_plan, validate_plan_try, plan_dict.
  cbn [getitem lookup String.eqb Ascii.eqb Bool.eqb bind iter].
  rewrite check_tools_typed. cbn [bind].
  destruct (tools_okb (steps p)); cbn; [|reflexivity].
  rewrite check_deps_typed. cbn.
  destruct (deps_okb 0 (steps p)); reflexivity.
Qed.

Lemma tools_okb_spec (ss : list TaskStep) :
  tools_okb ss = true <-> forall s, In s ss -> registered (tool s) = true.
Proof. unfold tools_okb. apply forallb_forall. Qed.

Lemma deps_okb_spec (i : Z) (ss : list TaskStep) :
  deps_okb i ss = true <->
  forall k s d, nth_error ss k = Some s -> In d (depends_on s) -> d < i + Z.of_nat k.
Proof.
  revert i; induction ss as [|s ss IH]; intros i.
  - split; [|reflexivity]. intros _ [|k] s d H; discriminate.
  - cbn [deps_okb]. rewrite andb_true_iff, forallb_forall, IH. split.
    + intros [Hs Hrest] [|k] s' d Hk Hd.
      * injection Hk as <-. apply Hs in Hd. apply Z.ltb_lt in Hd. lia.
      * specialize (Hrest k s' d Hk Hd). lia.
    + intros H. split.
      * intros d Hd. apply Z.ltb_lt. specialize (H 0%nat s d eq_refl Hd). lia.
      * intros k s' d Hk Hd. specialize (H (S k) s' d Hk Hd). lia.
Qed.

Lemma validate_plan_true_iff (p : TaskPlan) :
  validate_plan (plan_dict p) = Return true <->
  tools_registered (steps p) /\ deps_backward (steps p).
Proof.
  rewrite validate_plan_typed. unfold tools_registered, deps_backward.
  rewrite <- tools_okb_spec, <- (deps_okb_spec 0). split.
  - intros H. injection H as H. now apply andb_true_iff.
  - intros H. apply andb_true_iff in H. now rewrite H.
Qed.

(** C4: on the dict of a plan, [validate_plan] returns [False] when some
    step's tool is not in the registry, returns [False] when some step at
    index [i] has a dependency [dep >= i] (itself or a later or missing
    step), and returns [True] when every tool is registered and every
    dependency is below the index of its step. *)
Theorem validate_plan_decides (p : TaskPlan) :
  ((exists s, In s (steps p) /\ registered (tool s) = false) ->
   validate_plan (plan_dict p) = Return false) /\
  ((exists i s dep, nth_error (steps p) i = Some s /\ In dep (depends_on s) /\
                    dep >= Z.of_nat i) ->
   validate_plan (plan_dict p) = Return false) /\
  (tools_registered (steps p) -> deps_backward (steps p) ->
   validate_plan (plan_dict p) = Return true).
Proof.
  pose proof (validate_plan_true_iff p) as Hiff.
  assert (Hnot : ~ (tools_registered (steps p) /\ deps_backward (steps p)) ->
                 validate_plan (plan_dict p) = Return false).
  { intros Hn. rewrite validate_plan_typed in *.
    destruct (tools_okb (steps p) && deps_okb 0 (steps p)); [|reflexivity].
    exfalso. apply Hn. now apply Hiff. }
  repeat split.
  - intros [s [Hin Hreg]]. apply Hnot. intros [Ht _].
    rewrite (Ht s Hin) in Hreg. discriminate.
  - intros [i [s [dep [Hi [Hd Hge]]]]]. apply Hnot. intros [_ Hb].
    specialize (Hb i s dep Hi Hd). lia.
  - intros Ht Hb. now apply Hiff.
Qed.

(** ** Planner: shape of the plans *)

Lemma etl_workflow_deps (goal : string) (ts : Z) : deps_earlier (etl_workflow goal ts).
Proof. by_position. Qed.

Lemma training_workflow_deps (goal : string) (ts : Z) :
  deps_earlier (training_workflow goal ts).
Proof. by_position. Qed.

Lemma deployment_workflow_deps (goal : string) : deps_earlier (deployment_workflow goal).
Proof. by_position. Qed.

Lemma generic_workflow_deps (goal : string) (ts : Z) :
  deps_earlier (generic_workflow goal ts).
Proof. by_position. Qed.

Lemma plan_steps_deps (goal : string) (ts : Z) : deps_earlier (plan_steps goal ts).
Proof.
  destruct (plan_steps_cases goal ts) as [H | [H | [H | H]]]; rewrite H.
  - apply etl_workflow_deps.
  - apply training_workflow_deps.
  - apply deployment_workflow_deps.
  - apply generic_workflow_deps.
Qed.

Lemma plan_steps_registered (goal : string) (ts : Z) :
  tools_registered (plan_steps goal ts).
Proof.
  unfold tools_registered. rewrite <- tools_okb_spec.
  destruct (plan_steps_cases goal ts) as [H | [H | [H | H]]]; rewrite H; reflexivity.
Qed.

Lemma plan_steps_ends (goal : string) (ts : Z) :
  exists first middle final,
    plan_steps goal ts = first :: middle ++ [final] /\
    tool first = "runs_record_event" /\
    tool final = "runs_record_event" /\
    forall dep, In dep (depends_on final) -> 0 <= dep < 1 + len middle.
Proof.
  destruct (plan_steps_cases goal ts) as [H | [H | [H | H]]]; rewrite H;
    [ eexists _, [_; _], _ | eexists _, [_; _], _
    | eexists _, [_], _ | eexists _, [_; _], _ ];
    (split; [reflexivity|]); cbn; intuition lia.
Qed.

Lemma deps_earlier_backward (ss : list TaskStep) : deps_earlier ss -> deps_backward ss.
Proof. intros H i s dep Hi Hd. now apply (H i s dep). Qed.

(** C1: the plan made for any goal has a non-empty list of steps; its
    first step and its last step run [runs_record_event]; every dependency
    of the step at position [i], the last step included, is an index from
    [0] up to [i - 1]; every tool is registered; and [validate_plan]
    returns [True] on the dict that [plan] returns. *)
Theorem plan_is_well_formed {env : Env} (goal : string) (self : Orchestrator)
    (w : World) :
  let p := make_plan goal w in
  plan goal self w = (plan_dict p, mkOrchestrator (Some p) (execution_history self)) /\
  steps p <> [] /\
  (exists first middle final,
     steps p = first :: middle ++ [final] /\
     tool first = "runs_record_event" /\
     tool final = "runs_record_event" /\
     forall dep, In dep (depends_on final) -> 0 <= dep < 1 + len middle) /\
  deps_earlier (steps p) /\
  tools_registered (steps p) /\
  validate_plan (fst (plan goal self w)) = Return true.
Proof.
  cbn zeta. cbn [make_plan plan steps fst].
  pose proof (plan_steps_ends goal (utcnow_timestamp w)) as Hends.
  repeat split.
  - destruct Hends as [f [m [l [H _]]]]. rewrite H. discriminate.
  - exact Hends.
  - eapply plan_steps_deps; eassumption.
  - eapply plan_steps_deps; eassumption.
  - apply plan_steps_registered.
  - apply validate_plan_true_iff. split.
    + apply plan_steps_registered.
    + apply deps_earlier_backward, plan_steps_deps.
Qed.

(** ** Planner: determinism *)

Lemma plan_steps_shape (goal : string) (ts1 ts2 : Z) :
  map step_shape (plan_steps goal ts1) = map step_shape (plan_steps goal ts2) /\
  List.length (plan_steps goal ts1) = List.length (plan_steps goal ts2).
Proof.
  unfold plan_steps.
  destruct (is_etl_goal (lower goal)); [split; reflexivity|].
  destruct (is_training_goal (lower goal)); [split; reflexivity|].
  destruct (is_deployment_goal (lower goal)); split; reflexivity.
Qed.

(** C8: two calls of [plan] on the same goal, in any two states of the
    orchestrator and of the world, build plans that are equal once
    [created_at] and the [path] argument values are blanked: same goal,
    same tools in the same order, same [depends_on], [timeout] and
    [retry_count], same argument keys and other argument values, same
    metadata. *)
Theorem plan_deterministic {env : Env} (goal : string)
    (self1 self2 : Orchestrator) (w1 w2 : World) :
  current_plan (snd (plan goal self1 w1)) = Some (make_plan goal w1) /\
  current_plan (snd (plan goal self2 w2)) = Some (make_plan goal w2) /\
  fst (plan goal self1 w1) = plan_dict (make_plan goal w1) /\
  fst (plan goal self2 w2) = plan_dict (make_plan goal w2) /\
  plan_shape (make_plan goal w1) = plan_shape (make_plan goal w2).
Proof.
  repeat split.
  unfold plan_shape, make_plan. cbn -[plan_steps step_shape].
  destruct (plan_steps_shape goal (utcnow_timestamp w1) (utcnow_timestamp w2))
    as [Hs Hl].
  unfold len. now rewrite Hs, Hl.
Qed.

(** ** Validation: negative dependency indices *)

Lemma forallb_insert {A : Type} (f : A -> bool) (pos : nat) (x : A) (l : list A) :
  f x = true ->
  forallb f (firstn pos l ++ x :: skipn pos l) = forallb f l.
Proof.
  intros Hx. rewrite forallb_app. cbn [forallb]. rewrite Hx. cbn.
  rewrite <- forallb_app. now rewrite firstn_skipn.
Qed.

Lemma tools_okb_update (k pos : nat) (d : Z) (ss : list TaskStep) :
  tools_okb (update_step k (insert_dep pos d) ss) = tools_okb ss.
Proof.
  revert k; induction ss as [|s ss IH]; intros k; [reflexivity|].
  destruct k as [|k]; cbn; [reflexivity|]. unfold tools_okb in IH. now rewrite IH.
Qed.

Lemma deps_okb_update (k pos : nat) (d i : Z) (ss : list TaskStep) :
  d < 0 -> 0 <= i ->
  deps_okb i (update_step k (insert_dep pos d) ss) = deps_okb i ss.
Proof.
  intros Hd. revert k i; induction ss as [|s ss IH]; intros k i Hi; [reflexivity|].
  destruct k as [|k]; cbn [update_step deps_okb insert_dep depends_on].
  - rewrite forallb_insert; [reflexivity|]. apply Z.ltb_lt. lia.
  - rewrite IH by lia. reflexivity.
Qed.

Lemma update_step_nth (k : nat) (f : TaskStep -> TaskStep) (ss : list TaskStep)
    (s : TaskStep) :
  nth_error ss k = Some s -> nth_error (update_step k f ss) k = Some (f s).
Proof.
  revert k; induction ss as [|x ss IH]; intros [|k] H; try discriminate.
  - injection H as ->. reflexivity.
  - cbn. now apply IH.
Qed.

(** C9: a negative entry added anywhere in the [depends_on] of any step
    does not change what [validate_plan] returns, so a plan it accepts (its
    tools registered, no dependency at or above its step's index) is still
    accepted with the negative entry in place. *)
Theorem validate_plan_accepts_negative_dependency
    (p : TaskPlan) (k pos : nat) (d : Z) (s : TaskStep) :
  d < 0 ->
  nth_error (steps p) k = Some s ->
  (exists s', nth_error (steps (add_dependency k pos d p)) k = Some s' /\
              In d (depends_on s')) /\
  validate_plan (plan_dict (add_dependency k pos d p)) = validate_plan (plan_dict p) /\
  (tools_registered (steps p) -> deps_backward (steps p) ->
   validate_plan (plan_dict (add_dependency k pos d p)) = Return true).
Proof.
  intros Hd Hk.
  assert (Heq : validate_plan (plan_dict (add_dependency k pos d p))
                = validate_plan (plan_dict p)).
  { rewrite !validate_plan_typed. cbn [add_dependency steps].
    rewrite tools_okb_update, deps_okb_update by lia. reflexivity. }
  repeat split.
  - exists (insert_dep pos d s). split.
    + cbn [add_dependency steps]. now apply update_step_nth.
    + cbn. apply in_or_app. right. now left.
  - exact Heq.
  - intros Ht Hb. rewrite Heq. now apply validate_plan_true_iff.
Qed.

(** ** Validation: malformed input *)

Lemma check_tools_missing_tool (ss : list PyVal) (fields : PyDict) :
  In (PDict fields) ss -> lookup "tool" fields = None ->
  check_tools ss <> Return true.
Proof.
  intros Hin Hno. induction ss as [|x ss IH]; [destruct Hin|].
  cbn [check_tools]. destruct Hin as [-> | Hin].
  - cbn. rewrite Hno. discriminate.
  - destruct (getitem x "tool") as [t|e]; cbn; [|discriminate].
    destruct (in_tools t) as [[|]|e]; cbn; try discriminate. now apply IH.
Qed.

Lemma validate_plan_total (plan : PyVal) :
  validate_plan plan = Return true \/ validate_plan plan = Return false.
Proof.
  unfold validate_plan, try_except.
  destruct (validate_plan_try plan) as [[|]|e]; auto.
Qed.

(** C10: [validate_plan] returns a boolean on every value it is given:
    whatever the [try] block raises, the answer is [False].  In particular
    a dict without a ["steps"] key, and a plan one of whose steps has no
    ["tool"] key, are answered [False]. *)
Theorem validate_plan_never_raises (plan : PyVal) :
  (exists b, validate_plan plan = Return b) /\
  (forall e, validate_plan_try plan = Raise e -> validate_plan plan = Return false) /\
  (forall d, plan = PDict d -> lookup "steps" d = None ->
             validate_plan plan = Return false) /\
  (forall d ss fields,
     plan = PDict d -> lookup "steps" d = Some (PList ss) ->
     In (PDict fields) ss -> lookup "tool" fields = None ->
     validate_plan plan = Return false).
Proof.
  repeat split.
  - destruct (validate_plan_total plan) as [H | H]; rewrite H; eauto.
  - intros e H. unfold validate_plan. now rewrite H.
  - intros d -> H. unfold validate_plan, validate_plan_try. cbn. now rewrite H.
  - intros d ss fields -> Hs Hin Hno.
    pose proof (check_tools_missing_tool ss fields Hin Hno) as Hc.
    unfold validate_plan, validate_plan_try. cbn [getitem]. rewrite Hs. cbn [bind iter].
    destruct (check_tools ss) as [[|]|e]; cbn; try reflexivity.
    now contradiction Hc.
Qed.

(** ** Step executor *)

Section Executor.

Context {env : Env}.

Lemma execute_step_returns (step : TaskStep) (self : Orchestrator) (w : World) :
  exists outcome self' w', execute_step step self w = (Return outcome, self', w').
Proof.
  unfold execute_step. destruct (call_tool step w) as [[result | e] w'].
  - eauto.
  - destruct e; eauto.
Qed.

Lemma execute_step_timeout (step : TaskStep) (self : Orchestrator) (w : World) :
  times_out step w ->
  execute_step step self w = (Return (timeout_outcome step), self, snd (call_tool step w)).
Proof.
  intros [msg H]. unfold execute_step.
  destruct (call_tool step w) as [r w']. cbn in H. subst r. reflexivity.
Qed.

Lemma execute_step_success (step : TaskStep) (self : Orchestrator) (w : World)
    (result : PyDict) :
  fst (call_tool step w) = Return result ->
  exists entry self' w',
    execute_step step self w = (Return result, self', w') /\
    execution_history self' = execution_history self ++ [entry] /\
    lookup "status" entry = Some (PStr "success").
Proof.
  intros H. unfold execute_step.
  destruct (call_tool step w) as [r w']. cbn in H. subst r.
  eexists _, _, _. split; [reflexivity|]. split; reflexivity.
Qed.

Lemma execute_step_failure (step : TaskStep) (self : Orchestrator) (w : World)
    (e : PyExc) :
  fst (call_tool step w) = Raise e ->
  (forall msg, e <> TimeoutError msg) ->
  exists entry self' w',
    execute_step step self w = (Return (error_outcome step (exc_str e)), self', w') /\
    execution_history self' = execution_history self ++ [entry] /\
    lookup "status" entry = Some (PStr "failed").
Proof.
  intros H Hne. unfold execute_step.
  destruct (call_tool step w) as [r w']. cbn in H. subst r.
  destruct e; try (eexists _, _, _; split; [reflexivity|]; split; reflexivity).
  now contradiction (Hne msg).
Qed.

End Executor.

Lemma slow_step_times_out : times_out (env := sim_env 5) slow_step 0.
Proof. exists "timeout". reflexivity. Qed.

(** C2 (the code departs from it): a step that times out returns its
    timeout outcome but adds nothing to the execution history, although a
    step that succeeds and one that fails each add an entry.  Here the
    five-second job runs under a one-second timeout on a fresh
    orchestrator: the history stays empty and the summary reports no
    history; the same job under a ten-second timeout, and an unregistered
    tool, each leave one entry. *)
Theorem timeout_is_not_recorded :
  times_out (env := sim_env 5) slow_step 0 /\
  (let '(r, self', _) := execute_step (env := sim_env 5) slow_step Orchestrator_init 0 in
   r = Return (timeout_outcome slow_step) /\
   execution_history self' = [] /\
   get_execution_summary self' = Return (PDict [ ("message", PStr "No execution history") ])) /\
  (let '(_, self', _) :=
     execute_step (env := sim_env 5)
       (mkTaskStep "etl_run_job" (args slow_step) [] 10 3) Orchestrator_init 0 in
   map (lookup "status") (execution_history self') = [ Some (PStr "success") ]) /\
  (let '(_, self', _) :=
     execute_step (env := sim_env 5)
       (mkTaskStep "no_such_tool" [] [] 10 3) Orchestrator_init 0 in
   map (lookup "status") (execution_history self') = [ Some (PStr "failed") ]).
Proof.
  split; [exact slow_step_times_out|].
  split; [|split]; vm_compute; repeat split.
Qed.

(** C6 as stated fails: the one-second step on the five-second job times
    out, and the [error] field of its outcome is not
    ["timed out after 1s"]. *)
Lemma timeout_message_counterexample :
  times_out (env := sim_env 5) slow_step 0 /\
  exists outcome self' w',
    execute_step (env := sim_env 5) slow_step Orchestrator_init 0
      = (Return outcome, self', w') /\
    lookup "status" outcome = Some (PStr "timeout") /\
    lookup "error" outcome
      <> Some (PStr ("timed out after " ++ str_of_int (timeout slow_step) ++ "s")) /\
    lookup "error" outcome = Some (PStr "Step timed out after 1 seconds").
Proof.
  split; [exact slow_step_times_out|].
  eexists _, _, _. split; [reflexivity|].
  split; [reflexivity|]. split; [|reflexivity].
  vm_compute. discriminate.
Qed.

(** C6, amended: when the capability of a step does not complete within
    its timeout, [execute_step] returns (it does not raise) the outcome
    whose [status] is ["timeout"], whose [tool] is the step's tool and
    whose [error] is ["Step timed out after <timeout> seconds"], and the
    orchestrator is left as it was. *)
Theorem execute_step_timeout_outcome {env : Env} (step : TaskStep)
    (self : Orchestrator) (w : World) :
  times_out step w ->
  exists outcome w',
    execute_step step self w = (Return outcome, self, w') /\
    lookup "status" outcome = Some (PStr "timeout") /\
    lookup "tool" outcome = Some (PStr (tool step)) /\
    lookup "error" outcome
      = Some (PStr ("Step timed out after " ++ str_of_int (timeout step) ++ " seconds")).
Proof.
  intros H. exists (timeout_outcome step), (snd (call_tool step w)).
  split; [now apply execute_step_timeout|]. repeat split.
Qed.

Lemma execute_step_timeout_outcome_witness :
  times_out (env := sim_env 5) slow_step 0 /\
  exists outcome w',
    execute_step (env := sim_env 5) slow_step Orchestrator_init 0
      = (Return outcome, Orchestrator_init, w') /\
    lookup "status" outcome = Some (PStr "timeout") /\
    lookup "tool" outcome = Some (PStr (tool slow_step)) /\
    lookup "error" outcome
      = Some (PStr ("Step timed out after " ++ str_of_int (timeout slow_step) ++ " seconds")).
Proof.
  split.
  - exact slow_step_times_out.
  - apply (execute_step_timeout_outcome (env := sim_env 5) slow_step Orchestrator_init 0).
    exact slow_step_times_out.
Defined.

(** ** Plan runner *)

Section Runner.

Context {env : Env}.

Lemma Attempted_length (todo : list TaskStep) (self self' : Orchestrator)
    (w w' : World) (outcomes : list PyDict) :
  Attempted todo self w outcomes self' w' ->
  List.length outcomes = List.length todo.
Proof. induction 1; cbn; congruence. Qed.

Lemma act_loop_attempts (todo : list TaskStep) :
  forall (results : list PyVal) (self : Orchestrator) (w : World),
  exists outcomes self' w',
    act_loop todo results self w
      = (Return (results ++ map (fun so => step_result (fst so) (snd so))
                                (combine todo outcomes)), self', w') /\
    Attempted todo self w outcomes self' w'.
Proof.
  induction todo as [|step todo IH]; intros results self w.
  - exists [], self, w. cbn. rewrite app_nil_r. split; [reflexivity | constructor].
  - destruct (execute_step_returns step self w) as [o [self1 [w1 Hstep]]].
    destruct (IH (results ++ [step_result step o]) self1 w1)
      as [os [self2 [w2 [Hloop Hatt]]]].
    exists (o :: os), self2, w2. split.
    + cbn [act_loop]. rewrite Hstep. unfold step_result in Hloop. rewrite Hloop.
      cbn [combine map fst snd]. rewrite <- app_assoc. reflexivity.
    + econstructor; eassumption.
Qed.

End Runner.


(** ** Execution summary *)

Lemma has_status_spec (status : string) (h : PyDict) :
  has_status status h = true <-> lookup "status" h = Some (PStr status).
Proof.
  unfold has_status. destruct (lookup "status" h) as [[| | | |s| |]|]; cbn;
    try (split; [discriminate | intros H; discriminate]).
  rewrite String.eqb_eq. split; [now intros -> | intros H; now injection H].
Qed.

Lemma len_cons_pos {A : Type} (x : A) (l : list A) :
  len (x :: l) = Zpos (Pos.of_succ_nat (List.length l)).
Proof. reflexivity. Qed.


(** ** The theorems at concrete inputs *)

Lemma backward_plan_registered : tools_registered (steps backward_plan).
Proof. unfold tools_registered. rewrite <- tools_okb_spec. reflexivity. Qed.

Lemma backward_plan_backward : deps_backward (steps backward_plan).
Proof.
  intros i s dep Hi Hd.
  apply (proj1 (deps_okb_spec 0 (steps backward_plan)) eq_refl i s dep Hi Hd).
Qed.

Lemma validate_plan_decides_witness :
  validate_plan (plan_dict unknown_tool_plan) = Return false /\
  validate_plan (plan_dict self_reference_plan) = Return false /\
  validate_plan (plan_dict out_of_range_plan) = Return false /\
  validate_plan (plan_dict backward_plan) = Return true.
Proof.
  split; [|split; [|split]].
  - apply (proj1 (validate_plan_decides unknown_tool_plan)).
    exists (new_step "send_email" [] []). split; [now left | reflexivity].
  - apply (proj1 (proj2 (validate_plan_decides self_reference_plan))).
    exists 2%nat, (new_step "runs_record_event" [] [2]), 2.
    split; [reflexivity|]. split; [now left | cbn; lia].
  - apply (proj1 (proj2 (validate_plan_decides out_of_range_plan))).
    exists 2%nat, (new_step "runs_record_event" [] [5]), 5.
    split; [reflexivity|]. split; [now left | cbn; lia].
  - apply (proj2 (proj2 (validate_plan_decides backward_plan))).
    + exact backward_plan_registered.
    + exact backward_plan_backward.
Defined.

Lemma validate_plan_accepts_negative_dependency_witness :
  (exists s', nth_error (steps (add_dependency 1 0 (-1) backward_plan)) 1 = Some s' /\
              In (-1) (depends_on s')) /\
  validate_plan (plan_dict (add_dependency 1 0 (-1) backward_plan))
    = validate_plan (plan_dict backward_plan) /\
  validate_plan (plan_dict (add_dependency 1 0 (-1) backward_plan)) = Return true.
Proof.
  pose proof (validate_plan_accepts_negative_dependency backward_plan 1 0 (-1)
                (new_step "etl_run_job" [ ("payload", PDict []) ] [0])
                ltac:(lia) eq_refl) as [H1 [H2 H3]].
  split; [exact H1|]. split; [exact H2|].
  apply H3; [exact backward_plan_registered | exact backward_plan_backward].
Defined.

Lemma validate_plan_never_raises_witness :
  validate_plan (PDict [ ("goal", PStr "sales") ]) = Return false /\
  validate_plan (PDict [ ("steps", PList [ PDict [ ("args", PDict []) ] ]) ])
    = Return false /\
  validate_plan (PDict [ ("steps", PInt 3) ]) = Return false.
Proof.
  split; [|split].
  - apply (proj1 (proj2 (proj2
      (validate_plan_never_raises (PDict [ ("goal", PStr "sales") ]))))
      [ ("goal", PStr "sales") ]); reflexivity.
  - apply (proj2 (proj2 (proj2
      (validate_plan_never_raises
         (PDict [ ("steps", PList [ PDict [ ("args", PDict []) ] ]) ]))))
      [ ("steps", PList [ PDict [ ("args", PDict []) ] ]) ]
      [ PDict [ ("args", PDict []) ] ] [ ("args", PDict []) ]);
      try reflexivity. now left.
  - apply (proj1 (proj2 (validate_plan_never_raises (PDict [ ("steps", PInt 3) ])))
             (TypeError "object is not iterable")).
    reflexivity.
Defined.

Lemma goal_classification_first_match_witness :
  plan_steps "Train a model on the sales DATA" 17
    = etl_workflow "Train a model on the sales DATA" 17 /\
  plan_steps "Train and deploy the agent" 17
    = training_workflow "Train and deploy the agent" 17 /\
  plan_steps "Deploy it" 17 = deployment_workflow "Deploy it" /\
  plan_steps "hello" 17 = generic_workflow "hello" 17.
Proof.
  assert (Hno : forall b P, (b = true <-> P) -> b = false -> ~ P).
  { intros b P H Hb HP. apply H in HP. congruence. }
  split; [|split; [|split]].
  - apply (proj1 (goal_classification_first_match _ 17)).
    right; left. exists "train a model on the sales ", "". reflexivity.
  - apply (proj1 (proj2 (goal_classification_first_match _ 17))).
    + apply (Hno _ _ (is_etl_goal_spec _)). reflexivity.
    + left. exists "", " and deploy the agent". reflexivity.
  - apply (proj1 (proj2 (proj2 (goal_classification_first_match _ 17)))).
    + apply (Hno _ _ (is_etl_goal_spec _)). reflexivity.
    + apply (Hno _ _ (is_training_goal_spec _)). reflexivity.
    + left. exists "", " it". reflexivity.
  - apply (proj1 (proj2 (proj2 (proj2 (goal_classification_first_match _ 17))))).
    + apply (Hno _ _ (is_etl_goal_spec _)). reflexivity.
    + apply (Hno _ _ (is_training_goal_spec _)). reflexivity.
    + apply (Hno _ _ (is_deployment_goal_spec _)). reflexivity.
Defined.


(** * Further properties *)

(** ** The registry and the executor *)

Lemma registry_find_In (name : string) (f : ToolFn) :
  registry_find name TOOL_REGISTRY = Some f <-> In (name, f) TOOL_REGISTRY.
Proof.
  split.
  - unfold TOOL_REGISTRY. cbn [registry_find].
    repeat (match goal with
            | |- context [String.eqb ?k name] =>
                destruct (String.eqb_spec k name) as [<- | _];
                [intros H; injection H as <-; cbn; tauto|]
            end).
    discriminate.
  - cbn. intros H.
    repeat (destruct H as [H | H]; [injection H as <- <-; reflexivity|]).
    destruct H.
Qed.

(** X1: [get_tool] returns the function the registry holds under the name,
    and raises [ValueError] with the message ["Unknown tool: <name>"] for
    a name the registry does not hold. *)
Theorem get_tool_registry (tool_name : string) :
  (forall f, get_tool tool_name = Return f <-> In (tool_name, f) TOOL_REGISTRY) /\
  ((forall f, ~ In (tool_name, f) TOOL_REGISTRY) ->
   get_tool tool_name = Raise (ValueError ("Unknown tool: " ++ tool_name))).
Proof.
  unfold get_tool, registered. split.
  - intros f. rewrite <- registry_find_In.
    destruct (registry_find tool_name TOOL_REGISTRY) as [g|]; cbn.
    + split; intros H; injection H as <-; reflexivity.
    + split; discriminate.
  - intros Hno. destruct (registry_find tool_name TOOL_REGISTRY) as [g|] eqn:Hf.
    + apply registry_find_In in Hf. now contradiction (Hno g).
    + reflexivity.
Qed.

Lemma get_tool_registry_witness :
  get_tool "send_email" = Raise (ValueError "Unknown tool: send_email").
Proof.
  apply (proj2 (get_tool_registry "send_email")).
  intros f H. cbn in H.
  repeat (destruct H as [H | H]; [discriminate|]). destruct H.
Defined.

(** X2: a step whose tool is not registered invokes nothing: the world is
    as it was, the outcome is the error dict carrying
    ["Unknown tool: <name>"], and one entry with status ["failed"] and
    the same message is added to the history. *)
Theorem execute_step_unknown_tool {env : Env} (step : TaskStep)
    (self : Orchestrator) (w : World) :
  registered (tool step) = false ->
  execute_step step self w
  = (Return (error_outcome step ("Unknown tool: " ++ tool step)),
     append_history self (failed_entry step ("Unknown tool: " ++ tool step) w),
     w).
Proof.
  intros H. unfold execute_step, call_tool, get_tool. rewrite H. reflexivity.
Qed.

Lemma execute_step_unknown_tool_witness :
  execute_step (env := sim_env 1) email_step Orchestrator_init 7
  = (Return [ ("status", PStr "error"); ("tool", PStr "send_email");
              ("error", PStr "Unknown tool: send_email") ],
     mkOrchestrator None
       [ [ ("tool", PStr "send_email"); ("args", PDict [ ("to", PStr "ops") ]);
           ("error", PStr "Unknown tool: send_email");
           ("status", PStr "failed"); ("timestamp", PStr "T+7") ] ],
     7).
Proof.
  apply (execute_step_unknown_tool (env := sim_env 1) email_step Orchestrator_init 7).
  reflexivity.
Defined.

Lemma is_timeout_spec {A : Type} (r : Outcome A) :
  is_timeout r = true <-> exists msg, r = Raise (TimeoutError msg).
Proof.
  destruct r as [a | e]; cbn.
  - split; [discriminate | intros [m H]; discriminate].
  - destruct e; cbn; split; try discriminate; try (intros [m H]; discriminate).
    + intros _. now exists msg.
    + reflexivity.
Qed.

(** What one step does to the orchestrator *)
Lemma execute_step_effect {env : Env} (step : TaskStep) (self : Orchestrator)
    (w : World) :
  exists outcome self' w',
    execute_step step self w = (Return outcome, self', w') /\
    current_plan self' = current_plan self /\
    ((is_timeout (fst (call_tool step w)) = true /\ self' = self) \/
     (is_timeout (fst (call_tool step w)) = false /\
      exists entry,
        execution_history self' = execution_history self ++ [entry] /\
        lookup "tool" entry = Some (PStr (tool step)) /\
        recorded_status entry)).
Proof.
  unfold execute_step. destruct (call_tool step w) as [[result | e] w']; cbn [fst].
  - eexists _, _, _. split; [reflexivity|]. split; [reflexivity|].
    right. split; [reflexivity|]. eexists. split; [reflexivity|].
    split; [reflexivity | left; reflexivity].
  - destruct e; eexists _, _, _; (split; [reflexivity|]); (split; [reflexivity|]);
      try (left; split; reflexivity);
      right; (split; [reflexivity|]); eexists; (split; [reflexivity|]);
      (split; [reflexivity | right; reflexivity]).
Qed.

(** X3: [execute_step] only ever appends to the history.  It leaves
    [current_plan] alone; a step that times out leaves the orchestrator as
    it was; any other step adds exactly one entry after the existing
    ones, for the step's tool, with status ["success"] or ["failed"]. *)
Theorem execute_step_appends {env : Env} (step : TaskStep) (self : Orchestrator)
    (w : World) :
  exists outcome self' w',
    execute_step step self w = (Return outcome, self', w') /\
    current_plan self' = current_plan self /\
    ((times_out step w /\ self' = self) \/
     (~ times_out step w /\
      exists entry,
        execution_history self' = execution_history self ++ [entry] /\
        lookup "tool" entry = Some (PStr (tool step)) /\
        recorded_status entry)).
Proof.
  destruct (execute_step_effect step self w)
    as [o [self' [w' [H [Hp [[Ht Hs] | [Ht He]]]]]]];
    exists o, self', w'; (split; [exact H|]); (split; [exact Hp|]).
  - left. split; [|exact Hs]. now apply is_timeout_spec.
  - right. split; [|exact He]. intros Hto. apply is_timeout_spec in Hto. congruence.
Qed.

(** ** The runner and the history *)

Section RunnerHistory.

Context {env : Env}.

Lemma act_loop_history (todo : list TaskStep) :
  forall (results : list PyVal) (self : Orchestrator) (w : World),
  exists out self' w' added,
    act_loop todo results self w = (out, self', w') /\
    current_plan self' = current_plan self /\
    execution_history self' = execution_history self ++ added /\
    Forall recorded_status added /\
    (List.length added + timeouts_in todo self w = List.length todo)%nat.
Proof.
  induction todo as [|step todo IH]; intros results self w.
  - exists (Return results), self, w, []. cbn. rewrite app_nil_r. repeat split. constructor.
  - cbn [act_loop timeouts_in].
    destruct (execute_step_effect step self w)
      as [o [self1 [w1 [Hstep [Hp Hcase]]]]].
    rewrite Hstep.
    destruct (IH (results ++ [PDict [ ("tool", PStr (tool step)); ("result", PDict o) ]])
                 self1 w1) as [out [self2 [w2 [added [Hloop [Hp2 [Hh [Hf Hn]]]]]]]].
    destruct Hcase as [[Ht ->] | [Ht [entry [He [_ Hr]]]]]; rewrite Ht.
    + exists out, self2, w2, added. repeat split; try assumption. cbn. lia.
    + exists out, self2, w2, (entry :: added). split; [exact Hloop|].
      split; [congruence|]. split.
      * rewrite Hh, He, <- app_assoc. reflexivity.
      * split; [now constructor | cbn; lia].
Qed.

End RunnerHistory.

(** X4: [act] only ever appends to the history.  It leaves [current_plan]
    alone and keeps the entries it found, in place; the entries it adds
    all have status ["success"] or ["failed"], and there is one for each
    step of the plan except the steps that timed out. *)
Theorem act_appends {env : Env} (plan : TaskPlan) (self : Orchestrator) (w : World) :
  exists out self' w' added,
    act plan self w = (out, self', w') /\
    current_plan self' = current_plan self /\
    execution_history self' = execution_history self ++ added /\
    Forall recorded_status added /\
    (List.length added + timeouts_in (steps plan) self w = List.length (steps plan))%nat.
Proof. apply act_loop_history. Qed.

(** ** The summary *)

Lemma count_status_app (status : string) (h1 h2 : list PyDict) :
  count_status status (h1 ++ h2) = count_status status h1 + count_status status h2.
Proof. unfold count_status, len. rewrite filter_app, length_app. lia. Qed.

Lemma count_status_bounds (history : list PyDict) :
  0 <= count_status "success" history /\
  0 <= count_status "failed" history /\
  count_status "success" history + count_status "failed" history <= len history.
Proof.
  unfold count_status, len. induction history as [|h hs IH]; [cbn; lia|].
  cbn [filter].
  destruct (has_status "success" h) eqn:E1; destruct (has_status "failed" h) eqn:E2;
    cbn [List.length]; try lia.
  apply has_status_spec in E1, E2. congruence.
Qed.

Lemma count_status_recorded (history : list PyDict) :
  Forall recorded_status history ->
  count_status "success" history + count_status "failed" history = len history.
Proof.
  unfold count_status, len. induction 1 as [|h hs Hh _ IH]; [reflexivity|].
  cbn [filter].
  destruct (has_status "success" h) eqn:E1; destruct (has_status "failed" h) eqn:E2;
    cbn [List.length]; try lia.
  - apply has_status_spec in E1, E2. congruence.
  - destruct Hh as [Hh | Hh]; apply has_status_spec in Hh; congruence.
Qed.

(** The summary of a history that is not empty *)
Lemma summary_nonempty (self : Orchestrator) :
  execution_history self <> [] ->
  exists rate : Q,
    get_execution_summary self =
      Return (PDict [ ("total_executions", PInt (len (execution_history self)));
                      ("successful", PInt (count_status "success" (execution_history self)));
                      ("failed", PInt (count_status "failed" (execution_history self)));
                      ("success_rate", PFloat rate);
                      ("last_execution", PDict (last (execution_history self) [])) ]) /\
    (rate * inject_Z (len (execution_history self))
     == inject_Z (count_status "success" (execution_history self)))%Q.
Proof.
  intros Hne. unfold get_execution_summary.
  destruct (execution_history self) as [|h hs] eqn:Hh; [contradiction|].
  rewrite len_cons_pos. cbn [truediv bind].
  eexists. split; [reflexivity|].
  unfold Qmult, inject_Z, Qeq. cbn. lia.
Qed.

(** X5: in every summary of a history that is not empty the counts are
    consistent: [successful] and [failed] are not negative, together they
    do not exceed [total_executions], and [success_rate] lies between 0
    and 1. *)
Theorem summary_counts_bounded (self : Orchestrator) :
  execution_history self <> [] ->
  exists total successful failed rate last_entry,
    get_execution_summary self =
      Return (PDict [ ("total_executions", PInt total);
                      ("successful", PInt successful);
                      ("failed", PInt failed);
                      ("success_rate", PFloat rate);
                      ("last_execution", last_entry) ]) /\
    0 < total /\ 0 <= successful /\ 0 <= failed /\
    successful + failed <= total /\
    (0 <= rate)%Q /\ (rate <= 1)%Q.
Proof.
  intros Hne. destruct (summary_nonempty self Hne) as [rate [Hs Hr]].
  pose proof (count_status_bounds (execution_history self)) as [H1 [H2 H3]].
  assert (Hpos : 0 < len (execution_history self)).
  { destruct (execution_history self); [contradiction | rewrite len_cons_pos; lia]. }
  eexists _, _, _, rate, _. split; [exact Hs|].
  repeat split; try assumption.
  - destruct rate as [n d]. unfold Qmult, inject_Z, Qeq, Qle in *. cbn in *. nia.
  - destruct rate as [n d]. unfold Qmult, inject_Z, Qeq, Qle in *. cbn in *. nia.
Qed.

Lemma summary_counts_bounded_witness :
  exists total successful failed rate last_entry,
    get_execution_summary mixed_history =
      Return (PDict [ ("total_executions", PInt total);
                      ("successful", PInt successful);
                      ("failed", PInt failed);
                      ("success_rate", PFloat rate);
                      ("last_execution", last_entry) ]) /\
    0 < total /\ 0 <= successful /\ 0 <= failed /\
    successful + failed <= total /\
    (0 <= rate)%Q /\ (rate <= 1)%Q.
Proof. apply (summary_counts_bounded mixed_history). discriminate. Defined.

(** X6: after [act] on an orchestrator whose history holds only entries
    with status ["success"] or ["failed"] (a fresh orchestrator, or one
    that has only run steps), the history still holds only such entries,
    and so the two counts of the summary add up to the number of
    entries. *)
Theorem act_keeps_counts_exact {env : Env} (plan : TaskPlan) (self : Orchestrator)
    (w : World) :
  Forall recorded_status (execution_history self) ->
  exists out self' w',
    act plan self w = (out, self', w') /\
    Forall recorded_status (execution_history self') /\
    count_status "success" (execution_history self')
      + count_status "failed" (execution_history self')
    = len (execution_history self').
Proof.
  intros Hrec. destruct (act_loop_history (steps plan) [] self w)
    as [out [self' [w' [added [Hact [_ [Hh [Hf _]]]]]]]].
  exists out, self', w'. split; [exact Hact|].
  assert (Hall : Forall recorded_status (execution_history self')).
  { rewrite Hh. apply Forall_app. now split. }
  split; [exact Hall | now apply count_status_recorded].
Qed.

Lemma act_keeps_counts_exact_witness :
  exists out self' w',
    act (env := sim_env 5) (make_plan (env := sim_env 5) "etl" 100) Orchestrator_init 100
      = (out, self', w') /\
    Forall recorded_status (execution_history self') /\
    count_status "success" (execution_history self')
      + count_status "failed" (execution_history self')
    = len (execution_history self').
Proof.
  apply (act_keeps_counts_exact (env := sim_env 5)
           (make_plan (env := sim_env 5) "etl" 100) Orchestrator_init 100).
  constructor.
Defined.

(** ** A run in which every tool answers *)

Section AllAnswer.

Context {env : Env}.

Hypothesis answers : always_answers env.

Lemma execute_step_answers (step : TaskStep) (self : Orchestrator) (w : World) :
  registered (tool step) = true ->
  exists result w',
    execute_step step self w
    = (Return result, append_history self (success_entry step result w'), w').
Proof.
  intros Hreg. unfold execute_step, call_tool, get_tool. rewrite Hreg. cbn [negb].
  destruct (registry_find (tool step) TOOL_REGISTRY) as [f|] eqn:Hf.
  - destruct (answers f (args step) (timeout step) w) as [result Hres].
    destruct (invoke f (args step) (timeout step) w) as [r w']. cbn in Hres. subst r.
    now exists result, w'.
  - unfold registered in Hreg. rewrite Hf in Hreg. discriminate.
Qed.

Lemma act_loop_answers (todo : list TaskStep) :
  forall (results : list PyVal) (self : Orchestrator) (w : World),
  tools_registered todo ->
  exists out self' w' added,
    act_loop todo results self w = (Return out, self', w') /\
    execution_history self' = execution_history self ++ added /\
    List.length added = List.length todo /\
    map (lookup "tool") added = map (fun s => Some (PStr (tool s))) todo /\
    Forall (fun e => lookup "status" e = Some (PStr "success")) added.
Proof.
  induction todo as [|step todo IH]; intros results self w Hreg.
  - exists results, self, w, []. cbn. rewrite app_nil_r. repeat split. constructor.
  - destruct (execute_step_answers step self w) as [r [w1 Hstep]];
      [apply Hreg; now left|].
    destruct (IH (results ++ [PDict [ ("tool", PStr (tool step)); ("result", PDict r) ]])
                 (append_history self (success_entry step r w1)) w1)
      as [out [self2 [w2 [added [Hloop [Hh [Hn [Ht Hs]]]]]]]].
    { intros s Hs. apply Hreg. now right. }
    exists out, self2, w2, (success_entry step r w1 :: added).
    cbn [act_loop]. rewrite Hstep. split; [exact Hloop|]. split.
    + rewrite Hh. cbn [append_history execution_history]. now rewrite <- app_assoc.
    + split; [cbn; congruence|]. split; [cbn; congruence|]. now constructor.
Qed.

End AllAnswer.

Lemma count_status_all (status : string) (history : list PyDict) :
  Forall (fun e => lookup "status" e = Some (PStr status)) history ->
  count_status status history = len history.
Proof.
  unfold count_status, len. induction 1 as [|h hs Hh _ IH]; [reflexivity|].
  cbn [filter]. apply has_status_spec in Hh. rewrite Hh. cbn [List.length]. lia.
Qed.

Lemma count_status_none (status other : string) (history : list PyDict) :
  status <> other ->
  Forall (fun e => lookup "status" e = Some (PStr status)) history ->
  count_status other history = 0.
Proof.
  intros Hne. unfold count_status, len. induction 1 as [|h hs Hh _ IH]; [reflexivity|].
  cbn [filter]. destruct (has_status other h) eqn:E; [|exact IH].
  apply has_status_spec in E. congruence.
Qed.

(** X7: when every tool answers with a mapping, running a plan whose tools
    are all registered and which has at least one step, on a fresh
    orchestrator, records one ["success"] entry per step, in step order,
    and the summary then reports as many executions as the plan has
    steps, all of them successful, none failed, with a success rate
    of 1. *)
Theorem all_steps_succeed_summary {env : Env} (plan : TaskPlan) (w : World) :
  always_answers env ->
  tools_registered (steps plan) ->
  steps plan <> [] ->
  exists results self' w' rate last_entry,
    act plan Orchestrator_init w = (Return results, self', w') /\
    map (lookup "tool") (execution_history self')
      = map (fun s => Some (PStr (tool s))) (steps plan) /\
    get_execution_summary self' =
      Return (PDict [ ("total_executions", PInt (len (steps plan)));
                      ("successful", PInt (len (steps plan)));
                      ("failed", PInt 0);
                      ("success_rate", PFloat rate);
                      ("last_execution", last_entry) ]) /\
    (rate == 1)%Q.
Proof.
  intros Hans Hreg Hne.
  destruct (act_loop_answers Hans (steps plan) [] Orchestrator_init w Hreg)
    as [out [self' [w' [added [Hact [Hh [Hn [Ht Hs]]]]]]]].
  cbn [Orchestrator_init execution_history app] in Hh.
  assert (Hlen : len (execution_history self') = len (steps plan)).
  { unfold len. rewrite Hh. congruence. }
  assert (Hne' : execution_history self' <> []).
  { rewrite Hh. destruct added; [|discriminate].
    destruct (steps plan); [contradiction | discriminate]. }
  destruct (summary_nonempty self' Hne') as [rate [Hsum Hrate]].
  exists out, self', w', rate, (PDict (last (execution_history self') [])).
  split; [exact Hact|]. split; [now rewrite Hh|].
  rewrite <- Hh in Hs.
  rewrite (count_status_all "success" _ Hs) in Hsum, Hrate.
  rewrite (count_status_none "success" "failed" _ ltac:(discriminate) Hs) in Hsum.
  rewrite Hlen in Hsum, Hrate. split; [exact Hsum|].
  assert (Hpos : 0 < len (steps plan)).
  { unfold len. destruct (steps plan); [contradiction | cbn; lia]. }
  destruct rate as [n d]. unfold Qmult, inject_Z, Qeq in *. cbn in *. nia.
Qed.

Lemma all_steps_succeed_summary_witness :
  exists results self' w' rate last_entry,
    act (env := ok_env) backward_plan Orchestrator_init 0 = (Return results, self', w') /\
    map (lookup "tool") (execution_history self')
      = map (fun s => Some (PStr (tool s))) (steps backward_plan) /\
    get_execution_summary self' =
      Return (PDict [ ("total_executions", PInt 3);
                      ("successful", PInt 3);
                      ("failed", PInt 0);
                      ("success_rate", PFloat rate);
                      ("last_execution", last_entry) ]) /\
    (rate == 1)%Q.
Proof.
  apply (all_steps_succeed_summary (env := ok_env) backward_plan 0).
  - intros f a t w. eexists. reflexivity.
  - exact backward_plan_registered.
  - discriminate.
Defined.

(** ** Validation and execution together *)

(** X8: every step of a plan that [validate_plan] accepts reaches its
    tool: [get_tool] finds a function of the registry for it, and
    executing the step is invoking that function with the step's
    arguments under the step's timeout, never the unknown-tool error. *)
Theorem validated_steps_reach_their_tool (p : TaskPlan) (s : TaskStep) :
  validate_plan (plan_dict p) = Return true ->
  In s (steps p) ->
  exists f,
    In (tool s, f) TOOL_REGISTRY /\
    get_tool (tool s) = Return f /\
    forall (env : Env) (w : World),
      call_tool s w = invoke f (args s) (timeout s) w.
Proof.
  intros Hv Hin. apply validate_plan_true_iff in Hv. destruct Hv as [Ht _].
  specialize (Ht s Hin). unfold registered in Ht.
  destruct (registry_find (tool s) TOOL_REGISTRY) as [f|] eqn:Hf; [|discriminate].
  assert (Hg : get_tool (tool s) = Return f).
  { unfold get_tool, registered. now rewrite Hf. }
  exists f. split; [now apply registry_find_In|]. split; [exact Hg|].
  intros env w. unfold call_tool. now rewrite Hg.
Qed.

Lemma validated_steps_reach_their_tool_witness :
  exists f,
    In ("etl_run_job", f) TOOL_REGISTRY /\
    get_tool "etl_run_job" = Return f /\
    forall (env : Env) (w : World),
      call_tool (new_step "etl_run_job" [ ("payload", PDict []) ] [0]) w
      = invoke f [ ("payload", PDict []) ] 300 w.
Proof.
  apply (validated_steps_reach_their_tool backward_plan
           (new_step "etl_run_job" [ ("payload", PDict []) ] [0])).
  - reflexivity.
  - right. now left.
Defined.

Lemma check_tools_bare (ss : list TaskStep) :
  check_tools (map bare_step_dict ss) = Return (tools_okb ss).
Proof.
  induction ss as [|s ss IH]; [reflexivity|].
  cbn. destruct (registered (tool s)); cbn; [exact IH | reflexivity].
Qed.

Lemma check_deps_bare (i : Z) (ss : list TaskStep) :
  check_deps i (map bare_step_dict ss) = Return true.
Proof.
  revert i; induction ss as [|s ss IH]; intros i; [reflexivity|]. cbn. apply IH.
Qed.

(** X9: a step dict without a ["depends_on"] key counts as a step with no
    dependencies: a plan dict that holds only its steps, each giving only
    its tool and arguments, is accepted exactly when every tool is
    registered, and is answered [False] otherwise. *)
Theorem validate_plan_without_depends_on (ss : list TaskStep) :
  (tools_registered ss ->
   validate_plan (PDict [ ("steps", PList (map bare_step_dict ss)) ]) = Return true) /\
  (~ tools_registered ss ->
   validate_plan (PDict [ ("steps", PList (map bare_step_dict ss)) ]) = Return false).
Proof.
  assert (H : validate_plan (PDict [ ("steps", PList (map bare_step_dict ss)) ])
              = Return (tools_okb ss)).
  { unfold validate_plan, validate_plan_try.
    cbn [getitem lookup String.eqb Ascii.eqb Bool.eqb bind iter].
    rewrite check_tools_bare. cbn [bind].
    destruct (tools_okb ss); cbn; [|reflexivity].
    rewrite check_deps_bare. reflexivity. }
  rewrite H. split; intros Ht.
  - now rewrite (proj2 (tools_okb_spec ss) Ht).
  - destruct (tools_okb ss) eqn:E; [|reflexivity].
    contradiction Ht. exact (proj1 (tools_okb_spec ss) E).
Qed.

Lemma validate_plan_without_depends_on_witness :
  validate_plan (PDict [ ("steps", PList (map bare_step_dict (three_steps [5]))) ])
    = Return true /\
  validate_plan (PDict [ ("steps", PList (map bare_step_dict [ email_step ])) ])
    = Return false.
Proof.
  split.
  - apply (proj1 (validate_plan_without_depends_on (three_steps [5]))).
    unfold tools_registered. rewrite <- tools_okb_spec. reflexivity.
  - apply (proj2 (validate_plan_without_depends_on [ email_step ])).
    intros H. specialize (H email_step (or_introl eq_refl)). discriminate.
Defined.

(** ** The planner seen from its callers *)

Lemma plan_steps_length (goal : string) (ts : Z) :
  (plan_steps goal ts = deployment_workflow goal /\ len (plan_steps goal ts) = 3) \/
  (plan_steps goal ts <> deployment_workflow goal /\ len (plan_steps goal ts) = 4).
Proof.
  destruct (plan_steps_cases goal ts) as [H | [H | [H | H]]]; rewrite H.
  - right. split; [discriminate | reflexivity].
  - right. split; [discriminate | reflexivity].
  - left. split; reflexivity.
  - right. split; [discriminate | reflexivity].
Qed.

(** X10: [POST /plan] always answers with a body, never with an error: the
    body carries the plan dict and, as [steps_count], the number of its
    steps, which is 3 for the deployment workflow and 4 for the three
    others; the plan's [estimated_duration_seconds] is five times that
    number.  The orchestrator keeps its history and holds the new plan as
    [current_plan]. *)
Theorem create_plan_counts_steps {env : Env} {host : Host} (goal : string)
    (orchestrator : Orchestrator) (w : World) :
  let p := make_plan goal w in
  exists body n,
    Api.create_plan goal orchestrator w
    = (Api.Ok body, mkOrchestrator (Some p) (execution_history orchestrator)) /\
    lookup "plan" body = Some (plan_dict p) /\
    lookup "steps_count" body = Some (PInt n) /\
    n = len (steps p) /\
    lookup "estimated_duration_seconds" (metadata p) = Some (PInt (5 * n)) /\
    ((steps p = deployment_workflow goal /\ n = 3) \/
     (steps p <> deployment_workflow goal /\ n = 4)).
Proof.
  cbn zeta. eexists _, (len (plan_steps goal (utcnow_timestamp w))).
  split; [|split; [|split; [|split; [|split]]]].
  - unfold Api.create_plan, plan, plan_dict. cbn -[make_plan].
    unfold len at 1. rewrite length_map. reflexivity.
  - reflexivity.
  - reflexivity.
  - reflexivity.
  - cbn -[Z.mul]. f_equal. f_equal. apply Z.mul_comm.
  - apply plan_steps_length.
Qed.

(** X11: [execute_task_sync] reports success whatever the steps did: it
    plans, runs every step, and returns status ["success"] with the
    message ["Successfully executed <n> steps"], [n] being the number of
    steps of the plan, even when steps failed or timed out; the step
    results are in the answer only when [verbose] is set. *)
Theorem execute_task_sync_reports_success {env : Env} {host : Host}
    (goal : string) (verbose : bool) (orchestrator : Orchestrator) (w : World) :
  let p := make_plan goal w in
  exists outcomes orchestrator' w',
    Attempted (steps p) (mkOrchestrator (Some p) (execution_history orchestrator)) w
      outcomes orchestrator' w' /\
    Api.execute_task_sync goal verbose orchestrator w
    = (Return [ ("status", PStr "success");
                ("goal", PStr goal);
                ("results",
                 if verbose
                 then PList (map (fun so => step_result (fst so) (snd so))
                                 (combine (steps p) outcomes))
                 else PNone);
                ("duration_seconds", PFloat (total_seconds w w'));
                ("message",
                 PStr ("Successfully executed " ++ str_of_int (len (steps p))
                       ++ " steps")) ],
       orchestrator', w').
Proof.
  cbn zeta. unfold Api.execute_task_sync. cbn [plan].
  set (p := make_plan goal w).
  set (o1 := mkOrchestrator (Some p) (execution_history orchestrator)).
  destruct (act_loop_attempts (steps p) [] o1 w) as [os [o2 [w2 [Hact Hatt]]]].
  exists os, o2, w2. split; [exact Hatt|].
  unfold act. rewrite Hact. cbn [app].
  pose proof (Attempted_length _ _ _ _ _ _ Hatt) as Hlen.
  unfold len at 1. rewrite length_map, length_combine, Hlen, Nat.min_id.
  reflexivity.
Qed.

(** X12: [GET /status] never answers with an error: its body always carries
    the status ["operational"] and the summary of the history, which on a
    fresh orchestrator is the no-history message. *)
Theorem get_status_always_answers {env : Env} {host : Host}
    (orchestrator : Orchestrator) (w : World) :
  exists summary,
    get_execution_summary orchestrator = Return summary /\
    Api.get_status orchestrator w
    = Api.Ok [ ("status", PStr "operational");
               ("execution_summary", summary);
               ("timestamp", PStr (utcnow_iso w)) ] /\
    (execution_history orchestrator = [] ->
     summary = PDict [ ("message", PStr "No execution history") ]).
Proof.
  unfold Api.get_status.
  destruct (execution_history orchestrator) as [|h hs] eqn:Hh.
  - exists (PDict [ ("message", PStr "No execution history") ]).
    unfold get_execution_summary. rewrite Hh. repeat split.
  - destruct (summary_nonempty orchestrator) as [rate [Hs _]]; [now rewrite Hh|].
    rewrite Hh in Hs. rewrite Hs. eexists. split; [reflexivity|].
    split; [reflexivity | discriminate].
Qed.

(** ** The voice functions *)

(** X13: [check_status] always succeeds, and its message states the number
    of entries of the history, also for the empty history, whose summary
    has no [total_executions] and falls back on 0; the [limit] argument
    changes nothing. *)
Theorem check_status_counts_history {env : Env} {host : Host} (limit : Z)
    (orchestrator : Orchestrator) :
  exists summary,
    get_execution_summary orchestrator = Return summary /\
    Voice.check_status limit orchestrator
    = [ ("status", PStr "success");
        ("orchestrator_status", PStr "operational");
        ("execution_summary", summary);
        ("message",
         PStr ("Orchestrator is operational. "
               ++ str_of_int (len (execution_history orchestrator))
               ++ " tasks executed.")) ].
Proof.
  unfold Voice.check_status.
  destruct (execution_history orchestrator) as [|h hs] eqn:Hh.
  - eexists. unfold get_execution_summary. rewrite Hh. split; reflexivity.
  - destruct (summary_nonempty orchestrator) as [rate [Hs _]]; [now rewrite Hh|].
    rewrite Hh in Hs. rewrite Hs. eexists. split; reflexivity.
Qed.

Lemma act_returns {env : Env} (plan : TaskPlan) (self : Orchestrator) (w : World) :
  exists outcomes self' w',
    Attempted (steps plan) self w outcomes self' w' /\
    act plan self w
    = (Return (map (fun so => step_result (fst so) (snd so))
                   (combine (steps plan) outcomes)), self', w') /\
    len (map (fun so => step_result (fst so) (snd so)) (combine (steps plan) outcomes))
    = len (steps plan).
Proof.
  destruct (act_loop_attempts (steps plan) [] self w) as [os [o2 [w2 [Hact Hatt]]]].
  exists os, o2, w2. split; [exact Hatt|]. split; [exact Hact|].
  pose proof (Attempted_length _ _ _ _ _ _ Hatt) as Hlen.
  unfold len. now rewrite length_map, length_combine, Hlen, Nat.min_id.
Qed.

(** X14: [Voice.execute_task] answers with a dict in every case, and the
    event store decides its status.  If recording the command raises,
    nothing is planned or run: the orchestrator is as it was and the
    status is ["error"] with the store's message.  If it is recorded, the
    plan is made and every step is run; the status is then ["success"]
    with the number of steps when the completion is recorded, and
    ["error"] with the store's message when recording the completion
    raises, although the steps have run. *)
Theorem voice_execute_task_depends_on_event_store {env : Env} {host : Host}
    (goal : string) (verbose : bool) (orchestrator : Orchestrator) (w : World) :
  let p := fun w1 => make_plan goal w1 in
  (forall e w1,
     call runs_record_event (voice_command_event goal) w = (Raise e, w1) ->
     Voice.execute_task goal verbose orchestrator w
     = (Voice.task_error goal e, orchestrator, w1)) /\
  (forall r w1,
     call runs_record_event (voice_command_event goal) w = (Return r, w1) ->
     exists outcomes orchestrator' w2,
       Attempted (steps (p w1))
         (mkOrchestrator (Some (p w1)) (execution_history orchestrator)) w1
         outcomes orchestrator' w2 /\
       (forall e w3,
          call runs_record_event (voice_complete_event goal (len (steps (p w1)))) w2
            = (Raise e, w3) ->
          Voice.execute_task goal verbose orchestrator w
          = (Voice.task_error goal e, orchestrator', w3)) /\
       (forall r' w3,
          call runs_record_event (voice_complete_event goal (len (steps (p w1)))) w2
            = (Return r', w3) ->
          Voice.execute_task goal verbose orchestrator w
          = ([ ("status", PStr "success");
               ("goal", PStr goal);
               ("steps_completed", PInt (len (steps (p w1))));
               ("plan", if verbose then plan_dict (p w1) else PNone);
               ("message", PStr ("Successfully executed task: " ++ goal)) ],
             orchestrator', w3))).
Proof.
  cbn zeta. split.
  - intros e w1 H. unfold Voice.execute_task. fold (voice_command_event goal).
    now rewrite H.
  - intros r w1 H.
    destruct (act_returns (make_plan goal w1)
                (mkOrchestrator (Some (make_plan goal w1)) (execution_history orchestrator))
                w1) as [os [o2 [w2 [Hatt [Hact Hlen]]]]].
    exists os, o2, w2. split; [exact Hatt|].
    split; intros x w3 Hc; unfold Voice.execute_task;
      fold (voice_command_event goal); rewrite H; cbn [plan];
      rewrite Hact; rewrite Hlen;
      fold (voice_complete_event goal (len (steps (make_plan goal w1))));
      rewrite Hc; reflexivity.
Qed.

Lemma voice_execute_task_depends_on_event_store_witness :
  (exists w1,
     Voice.execute_task (host := sim_host 1 (fun _ => false)) "deploy" false
       Orchestrator_init 0
     = ([ ("status", PStr "error"); ("goal", PStr "deploy");
          ("error", PStr "connection refused");
          ("message", PStr "Failed to execute task: connection refused") ],
        Orchestrator_init, w1)) /\
  (exists orchestrator' w3,
     Voice.execute_task (host := sim_host 1 (String.eqb "VOICE_COMMAND")) "deploy" false
       Orchestrator_init 0
     = ([ ("status", PStr "error"); ("goal", PStr "deploy");
          ("error", PStr "connection refused");
          ("message", PStr "Failed to execute task: connection refused") ],
        orchestrator', w3) /\
     List.length (execution_history orchestrator') = 3%nat) /\
  (exists orchestrator' w3,
     Voice.execute_task (host := sim_host 1 (fun _ => true)) "deploy" false
       Orchestrator_init 0
     = ([ ("status", PStr "success"); ("goal", PStr "deploy");
          ("steps_completed", PInt 3); ("plan", PNone);
          ("message", PStr "Successfully executed task: deploy") ],
        orchestrator', w3)).
Proof.
  split; [|split].
  - exists 0.
    apply (proj1 (voice_execute_task_depends_on_event_store
                    (host := sim_host 1 (fun _ => false)) "deploy" false
                    Orchestrator_init 0)
             (Exception "connection refused") 0).
    reflexivity.
  - destruct (proj2 (voice_execute_task_depends_on_event_store
                    (host := sim_host 1 (String.eqb "VOICE_COMMAND")) "deploy" false
                    Orchestrator_init 0)
             [ ("status", PStr "success") ] 0 eq_refl)
      as [os [o2 [w2 [Hatt [Hraise _]]]]].
    exists o2, w2. split.
    + apply (Hraise (Exception "connection refused") w2). reflexivity.
    + inversion Hatt as [|? ? ? ? ? ? ? ? ? ? H1 Hatt1]; subst. cbn in H1.
      injection H1 as <- <- <-.
      inversion Hatt1 as [|? ? ? ? ? ? ? ? ? ? H2 Hatt2]; subst. cbn in H2.
      injection H2 as <- <- <-.
      inversion Hatt2 as [|? ? ? ? ? ? ? ? ? ? H3 Hatt3]; subst. cbn in H3.
      injection H3 as <- <- <-.
      inversion Hatt3; subst. reflexivity.
  - destruct (proj2 (voice_execute_task_depends_on_event_store
                    (host := sim_host 1 (fun _ => true)) "deploy" false
                    Orchestrator_init 0)
             [ ("status", PStr "success") ] 0 eq_refl)
      as [os [o2 [w2 [Hatt [_ Hret]]]]].
    exists o2, w2. apply (Hret [ ("status", PStr "success") ] w2). reflexivity.
Defined.

(** ** The command-line engine *)

Lemma run_steps_attempts {env : Env} {host : Host} (todo : list TaskStep) :
  forall (results : list PyVal) (orchestrator : Orchestrator) (w : World),
  exists outcomes orchestrator' w',
    Engine.run_steps todo results orchestrator w
      = (Return (results ++ map PDict outcomes), orchestrator', w') /\
    Attempted todo orchestrator w outcomes orchestrator' w'.
Proof.
  induction todo as [|step todo IH]; intros results o w.
  - exists [], o, w. cbn. rewrite app_nil_r. split; [reflexivity | constructor].
  - destruct (execute_step_returns step o w) as [r [o1 [w1 Hstep]]].
    destruct (IH (results ++ [PDict r]) o1 w1) as [os [o2 [w2 [Hloop Hatt]]]].
    exists (r :: os), o2, w2. split.
    + cbn [Engine.run_steps]. rewrite Hstep, Hloop. cbn [map].
      now rewrite <- app_assoc.
    + econstructor; eassumption.
Qed.

(** X15: [Engine.execute_task] does not depend on the event store: whether
    its events are recorded or the store raises each time, the plan
    is made, every step is run once and in order, and the answer has
    status ["success"], the plan dict and the outcome of each step, one
    per step, in order. *)
Theorem engine_execute_task_survives_event_store {env : Env} {host : Host}
    (goal : string) (verbose : bool) (orchestrator : Orchestrator) (w : World) :
  exists w1 outcomes orchestrator' w2 w3,
    let p := make_plan goal w1 in
    w1 = snd (call runs_record_event
                [ ("event_type", PStr "TASK_START");
                  ("details", PDict [ ("goal", PStr goal);
                                      ("timestamp", PStr (utcnow_iso w)) ]) ] w) /\
    Attempted (steps p) (mkOrchestrator (Some p) (execution_history orchestrator)) w1
      outcomes orchestrator' w2 /\
    List.length outcomes = List.length (steps p) /\
    Engine.execute_task goal verbose orchestrator w
    = (Return [ ("status", PStr "success");
                ("goal", PStr goal);
                ("plan", plan_dict p);
                ("results", PList (map PDict outcomes));
                ("duration_seconds", PFloat (total_seconds w w2)) ],
       orchestrator', w3).
Proof.
  unfold Engine.execute_task.
  set (w1 := Engine._record_event "TASK_START" _ w).
  cbn [plan].
  set (p := make_plan goal w1).
  destruct (run_steps_attempts (steps p) []
              (mkOrchestrator (Some p) (execution_history orchestrator)) w1)
    as [os [o2 [w2 [Hrun Hatt]]]].
  exists w1, os, o2, w2. eexists. cbn zeta.
  split.
  - unfold w1, Engine._record_event.
    destruct (call runs_record_event _ w) as [[r | e] w']; reflexivity.
  - split; [exact Hatt|]. split; [exact (Attempted_length _ _ _ _ _ _ Hatt)|].
    fold p. rewrite Hrun. cbn [app]. reflexivity.
Qed.

(** ** The function dispatcher *)





(** A name that was never registered is answered with the unknown-function
    dict and runs nothing. *)
Lemma execute_unregistered_function {env : Env} (function_name : string)
    (args : PyDict) (self : Gemini.GeminiLiveHandler) (w : World) :
  ~ In function_name (map fst (Gemini.function_handlers self)) ->
  Gemini._execute_function function_name args self w
  = (PDict [ ("error", PStr ("Unknown function: " ++ function_name)) ], w).
Proof.
  intros Hno. unfold Gemini._execute_function.
  assert (H : dict_get function_name (Gemini.function_handlers self) = None).
  { induction (Gemini.function_handlers self) as [|[k h] d IH]; [reflexivity|].
    cbn in *. destruct (String.eqb_spec k function_name) as [-> | _].
    - contradiction Hno. now left.
    - apply IH. intros Hin. apply Hno. now right. }
  now rewrite H.
Qed.


(** ** The storage tool *)

Lemma rstrip_repeat (c : ascii) (k : nat) : Tools.rstrip c (repeat_char c k) = "".
Proof.
  induction k as [|k IH]; [reflexivity|].
  cbn. rewrite IH. now rewrite Ascii.eqb_refl.
Qed.

Lemma rstrip_app_repeat (c : ascii) (s : string) (k : nat) :
  Tools.rstrip c (s ++ repeat_char c k) = Tools.rstrip c s.
Proof.
  induction s as [|a s IH]; cbn.
  - apply rstrip_repeat.
  - now rewrite IH.
Qed.

Lemma rstrip_no_trailing (c : ascii) (s : string) :
  no_trailing c s -> Tools.rstrip c s = s.
Proof.
  induction s as [|a s IH]; intros Hno; [reflexivity|].
  cbn. destruct s as [|b s].
  - cbn. destruct (Ascii.eqb_spec a c) as [-> | _]; [|reflexivity].
    now contradiction (Hno "").
  - rewrite IH.
    + reflexivity.
    + intros pre H. apply (Hno (String a pre)). cbn. now rewrite H.
Qed.

(** X17: [artifacts_write_text] writes to the bucket named by [GCS_BUCKET]
    with its ["gs://"] scheme and its trailing slashes taken off, so a
    bucket given as ["gs://<b>"] followed by any number of slashes, [b]
    not ending in a slash, gives the URI ["gs://<b>/<path>"].  When the
    upload goes through the result has status ["success"], that URI and,
    as [size_bytes], the number of characters of the content; when the
    upload raises, the same exception is raised and no result is
    returned. *)
Theorem artifacts_write_text_uri {env : Env} (environ : list (string * string))
    (upload : string -> string -> string -> World -> Outcome unit * World)
    (path content b : string) (k : nat) (w : World) :
  dict_get "GCS_BUCKET" environ = Some ("gs://" ++ b ++ repeat_char "/" k)%string ->
  no_trailing "/" b ->
  Tools.bucket_name environ = b /\
  (forall w',
     upload b path content w = (Return tt, w') ->
     Tools.artifacts_write_text environ upload path content w
     = (Return [ ("status", PStr "success");
                 ("gs_uri", PStr ("gs://" ++ b ++ "/" ++ path));
                 ("size_bytes", PInt (Z.of_nat (String.length content)));
                 ("timestamp", PStr (utcnow_iso w')) ], w')) /\
  (forall e w',
     upload b path content w = (Raise e, w') ->
     Tools.artifacts_write_text environ upload path content w = (Raise e, w')).
Proof.
  intros Henv Hno.
  assert (Hb : Tools.bucket_name environ = b).
  { assert (Hget : forall d, Tools.environ_get environ "GCS_BUCKET" d
                             = ("gs://" ++ b ++ repeat_char "/" k)%string).
    { intros d. unfold Tools.environ_get. now rewrite Henv. }
    unfold Tools.bucket_name. rewrite !Hget.
    cbn [append startswith Ascii.eqb Bool.eqb andb Tools.drop].
    rewrite rstrip_app_repeat. now apply rstrip_no_trailing. }
  split; [exact Hb|].
  unfold Tools.artifacts_write_text. rewrite Hb.
  split; [intros w' H | intros e w' H]; rewrite H; reflexivity.
Qed.

Lemma artifacts_write_text_uri_witness :
  Tools.bucket_name [ ("GCS_BUCKET", "gs://nova-artifacts//") ] = "nova-artifacts" /\
  Tools.artifacts_write_text (env := sim_env 1) [ ("GCS_BUCKET", "gs://nova-artifacts//") ]
    upload_ok "runs/7.txt" "done" 7
  = (Return [ ("status", PStr "success");
              ("gs_uri", PStr "gs://nova-artifacts/runs/7.txt");
              ("size_bytes", PInt 4);
              ("timestamp", PStr "T+7") ], 7) /\
  Tools.artifacts_write_text (env := sim_env 1) [ ("GCS_BUCKET", "gs://nova-artifacts//") ]
    upload_refused "runs/7.txt" "done" 7
  = (Raise (Exception "403 Forbidden"), 7).
Proof.
  assert (Hno : no_trailing "/" "nova-artifacts").
  { intros pre H.
    do 14 (destruct pre as [|? pre]; [discriminate|]; injection H as _ H).
    destruct pre; discriminate. }
  destruct (artifacts_write_text_uri (env := sim_env 1)
              [ ("GCS_BUCKET", "gs://nova-artifacts//") ] upload_ok
              "runs/7.txt" "done" "nova-artifacts" 2 7 eq_refl Hno) as [H1 [H2 _]].
  destruct (artifacts_write_text_uri (env := sim_env 1)
              [ ("GCS_BUCKET", "gs://nova-artifacts//") ] upload_refused
              "runs/7.txt" "done" "nova-artifacts" 2 7 eq_refl Hno) as [_ [_ H3]].
  split; [exact H1|]. split.
  - apply (H2 7). reflexivity.
  - apply (H3 (Exception "403 Forbidden") 7). reflexivity.
Defined.

(** ** Artifact paths *)

Lemma str_length_app (a b : string) :
  String.length (a ++ b) = (String.length a + String.length b)%nat.
Proof. induction a as [|c a IH]; cbn; [reflexivity | now rewrite IH]. Qed.

Lemma str_app_cancel_r (a b t : string) : (a ++ t = b ++ t)%string -> a = b.
Proof.
  revert b; induction a as [|c a IH]; intros [|d b] H; cbn in H.
  - reflexivity.
  - apply (f_equal String.length) in H. cbn in H. rewrite str_length_app in H. lia.
  - apply (f_equal String.length) in H. cbn in H. rewrite str_length_app in H. lia.
  - injection H as -> H. f_equal. now apply IH.
Qed.

Lemma str_of_int_inj (a b : Z) : str_of_int a = str_of_int b -> a = b.
Proof.
  unfold str_of_int. intros H.
  assert (Hnn : forall z, Z.to_int z <> Decimal.Pos Decimal.Nil /\
                          Z.to_int z <> Decimal.Neg Decimal.Nil).
  { intros [|p|p]; cbn; split; try discriminate;
      intros E; injection E as E; now apply DecimalPos.Unsigned.to_uint_nonnil in E. }
  apply (f_equal NilZero.int_of_string) in H.
  rewrite !NilZero.isi in H by apply Hnn.
  injection H as H. now apply DecimalZ.to_int_inj.
Qed.

(** X18: every plan but the deployment one has exactly one artifact path,
    and the path is a function of the workflow and of the second the
    plan was made in: two plans for one goal made in different seconds
    write to different paths, two made in the same second to the same
    path. *)
Theorem artifact_path_per_second (goal : string) (ts1 ts2 : Z) :
  plan_steps goal ts1 <> deployment_workflow goal ->
  (exists path, artifact_paths (plan_steps goal ts1) = [ PStr path ]) /\
  (artifact_paths (plan_steps goal ts1) = artifact_paths (plan_steps goal ts2)
   <-> ts1 = ts2).
Proof.
  intros Hnd. unfold plan_steps in *.
  destruct (is_etl_goal (lower goal)); [|destruct (is_training_goal (lower goal));
    [|destruct (is_deployment_goal (lower goal)); [now contradiction Hnd|]]];
    (split; [eexists; reflexivity|]);
    (split; [|now intros ->]); cbn; intros H; injection H as H;
    apply str_app_cancel_r in H; now apply str_of_int_inj.
Qed.

Lemma artifact_path_per_second_witness :
  (exists path, artifact_paths (plan_steps "load sales data" 100) = [ PStr path ]) /\
  (artifact_paths (plan_steps "load sales data" 100)
   = artifact_paths (plan_steps "load sales data" 101) <-> 100 = 101).
Proof.
  apply (artifact_path_per_second "load sales data" 100 101). discriminate.
Defined.
